(** * form_8k_checker: the Form 8-K index pipeline

    A shallow embedding of [form_8k_checker.py]: the merge of freshly
    scraped filings with the stored ones ([get_final_string]), the reading
    and writing of the stored markdown document ([get_exisiting_entries],
    [update_github_file]) and the pagination loop over the SEC listing
    ([get_8ks]).

    Python [str] values are modelled as [string], read as the UTF-8 bytes
    of the text: splitting on an ASCII character, deleting an ASCII
    character and comparing lexicographically agree on bytes and on code
    points. *)

From Stdlib Require Import List String Ascii Bool Arith Lia DecimalString
  DecimalNat.
Import ListNotations.
Open Scope string_scope.
Open Scope list_scope.

(** ** Exceptions *)

Module Py.

Inductive exn : Type :=
| IndexError
| AttributeError
| ValueError
| RequestError.

Inductive result (A : Type) : Type :=
| Ok (a : A)
| Raise (e : exn).

Arguments Ok {A} a.
Arguments Raise {A} e.

Definition bind {A B : Type} (r : result A) (k : A -> result B) : result B :=
  match r with
  | Ok a => k a
  | Raise e => Raise e
  end.

End Py.

Import Py.

Notation "x <- r ;; k" := (Py.bind r (fun x => k))
  (at level 61, r at next level, right associativity).

(** ** Python string primitives *)

Definition LF : ascii := "010"%char.
Definition CR : ascii := "013"%char.
Definition PIPE : ascii := "|"%char.
Definition DQUOTE : ascii := "034"%char.

(** [s.split(sep)] for a one-character separator: always at least one
    field. *)
Fixpoint split (sep : ascii) (s : string) : list string :=
  match s with
  | EmptyString => [EmptyString]
  | String c s' =>
      if Ascii.eqb c sep then EmptyString :: split sep s'
      else match split sep s' with
           | [] => [String c EmptyString]
           | f :: fs => String c f :: fs
           end
  end.

(** [a > b] on [str]. *)
Definition str_gt (a b : string) : bool :=
  match String.compare a b with
  | Gt => true
  | _ => false
  end.

(** [a <= b] on [str]. *)
Definition str_le (a b : string) : bool := negb (str_gt a b).

(** [sep.join(ls)]. *)
Definition join (sep : string) (ls : list string) : string :=
  String.concat sep ls.

(** [s.replace(c, '')] for a one-character [c]. *)
Fixpoint remove_char (c : ascii) (s : string) : string :=
  match s with
  | EmptyString => EmptyString
  | String a s' =>
      if Ascii.eqb a c then remove_char c s' else String a (remove_char c s')
  end.

(** [s.count(c)] for a one-character [c]. *)
Fixpoint count_char (c : ascii) (s : string) : nat :=
  match s with
  | EmptyString => 0
  | String a s' => (if Ascii.eqb a c then 1 else 0) + count_char c s'
  end.

(** ** The merge: [get_final_string] *)

(** [entry.split('|')[i]]; the subscript raises [IndexError] when the entry
    has too few fields. *)
Definition field (i : nat) (entry : string) : result string :=
  match nth_error (split PIPE entry) i with
  | Some f => Ok f
  | None => Raise IndexError
  end.

(** The timestamp column of a stored row [|name|timestamp|link|]. *)
Definition entry_timestamp (entry : string) : result string := field 2 entry.

(** The [for entry in new_entries] loop of [get_final_string]: entries are
    appended while their timestamp is greater than the cutoff, and the loop
    breaks at the first one that is not. *)
Fixpoint scan_new (cutoff_timestamp : string) (new_entries : list string)
  : result (list string) :=
  match new_entries with
  | [] => Ok []
  | entry :: rest =>
      ts <- entry_timestamp entry ;;
      if str_gt ts cutoff_timestamp
      then (kept <- scan_new cutoff_timestamp rest ;; Ok (entry :: kept))
      else Ok []
  end.

(** The list [final_list] that [get_final_string] builds. [old_entries] is
    [None] when the stored document does not exist; [None] and the empty
    list are both falsy. *)
Definition final_list (new_entries : list string)
  (old_entries : option (list string)) : result (list string) :=
  match old_entries with
  | Some ((first :: _) as old) =>
      cutoff_timestamp <- entry_timestamp first ;;
      kept <- scan_new cutoff_timestamp new_entries ;;
      Ok (kept ++ old)
  | _ => Ok new_entries
  end.

Definition get_final_string (new_entries : list string)
  (old_entries : option (list string)) : result string :=
  fl <- final_list new_entries old_entries ;;
  Ok (join (String LF EmptyString) fl).

(** ** Lines of a document: [str.splitlines] *)

(** Number of bytes of the line boundary at the front of [s], 0 when [s]
    does not start with one. The boundaries of [str.splitlines] are
    [\n], [\r], [\r\n], [\v], [\f], [\x1c], [\x1d], [\x1e], [\x85]
    (bytes C2 85), [\u2028] and [\u2029] (bytes E2 80 A8 and E2 80 A9). *)
Definition line_boundary (s : string) : nat :=
  match s with
  | EmptyString => 0
  | String c1 rest =>
      if Ascii.eqb c1 CR then
        match rest with
        | String c2 _ => if Ascii.eqb c2 LF then 2 else 1
        | EmptyString => 1
        end
      else if Ascii.eqb c1 LF || Ascii.eqb c1 "011"%char
              || Ascii.eqb c1 "012"%char || Ascii.eqb c1 "028"%char
              || Ascii.eqb c1 "029"%char || Ascii.eqb c1 "030"%char then 1
      else if Ascii.eqb c1 "194"%char then
        match rest with
        | String c2 _ => if Ascii.eqb c2 "133"%char then 2 else 0
        | EmptyString => 0
        end
      else if Ascii.eqb c1 "226"%char then
        match rest with
        | String c2 (String c3 _) =>
            if Ascii.eqb c2 "128"%char
               && (Ascii.eqb c3 "168"%char || Ascii.eqb c3 "169"%char)
            then 3 else 0
        | _ => 0
        end
      else 0
  end.

(** The pieces of [s] between line boundaries; [skip] counts the bytes of
    a boundary that are still to be passed over. *)
Fixpoint break_lines (skip : nat) (s : string) : list string :=
  match s with
  | EmptyString => [EmptyString]
  | String c s' =>
      match skip with
      | S k => break_lines k s'
      | O =>
          match line_boundary s with
          | O => match break_lines 0 s' with
                 | [] => [String c EmptyString]
                 | f :: fs => String c f :: fs
                 end
          | S k => EmptyString :: break_lines k s'
          end
      end
  end.

(** A boundary at the very end does not open one more line. *)
Fixpoint drop_last_empty (ls : list string) : list string :=
  match ls with
  | [] => []
  | [l] => if String.eqb l EmptyString then [] else [l]
  | l :: ls' => l :: drop_last_empty ls'
  end.

Definition splitlines (s : string) : list string :=
  drop_last_empty (break_lines 0 s).

(** [needle in hay]. *)
Fixpoint contains (needle hay : string) : bool :=
  String.prefix needle hay
  || match hay with
     | EmptyString => false
     | String _ hay' => contains needle hay'
     end.

(** [s.lstrip(c)], [s.rstrip(c)] and [s.strip(c)] for a one-character
    set. *)
Fixpoint lstrip (c : ascii) (s : string) : string :=
  match s with
  | EmptyString => EmptyString
  | String a s' => if Ascii.eqb a c then lstrip c s' else s
  end.

Fixpoint rstrip (c : ascii) (s : string) : string :=
  match s with
  | EmptyString => EmptyString
  | String a s' =>
      match rstrip c s' with
      | EmptyString => if Ascii.eqb a c then EmptyString else String a EmptyString
      | r => String a r
      end
  end.

Definition strip (c : ascii) (s : string) : string := rstrip c (lstrip c s).

(** [str(n)] for a non-negative integer. *)
Definition str_of_nat (n : nat) : string :=
  NilEmpty.string_of_uint (Nat.to_uint n).

(** [base64.b64encode(s.encode()).decode('utf-8')]. *)
Definition b64_alphabet : string :=
  "ABCDEFGHIJKLMNOPQRSTUVWXYZabcdefghijklmnopqrstuvwxyz0123456789+/".

Definition b64_digit (n : nat) : ascii :=
  match String.get n b64_alphabet with
  | Some c => c
  | None => "="%char
  end.

Fixpoint b64_groups (bs : list nat) : string :=
  match bs with
  | [] => EmptyString
  | [a] =>
      String (b64_digit (a / 4)) (String (b64_digit ((a mod 4) * 16)) "==")
  | [a; b] =>
      String (b64_digit (a / 4))
        (String (b64_digit ((a mod 4) * 16 + b / 16))
           (String (b64_digit ((b mod 16) * 4)) "="))
  | a :: b :: c :: rest =>
      String (b64_digit (a / 4))
        (String (b64_digit ((a mod 4) * 16 + b / 16))
           (String (b64_digit ((b mod 16) * 4 + c / 64))
              (String (b64_digit (c mod 64)) (b64_groups rest))))
  end.

Definition b64encode (s : string) : string :=
  b64_groups (map nat_of_ascii (list_ascii_of_string s)).

(** ** Constants of the script *)

Definition TESTING : bool := false.
Definition ITEM : string := if TESTING then "5.02" else "1.05".
Definition FILE_PATH : string := "8-Ks.md".
Definition FILINGS_PER_PAGE : nat := 100.
Definition SEC_TIMEOUT : nat := 10.

Definition NL : string := String LF EmptyString.

(** [HEADING]; [now] is [datetime.now().strftime('%Y-%m-%d %H:%M:%S')],
    evaluated when the script is loaded. *)
Definition HEADING (now : string) : string :=
  ("# List of Form 8-Ks with item " ++ ITEM ++ NL
   ++ "Last checked " ++ now ++ NL ++ NL
   ++ "|Company|Timestamp|Link|" ++ NL
   ++ "|---|---|---|" ++ NL)%string.

Definition get_sec_url (index : nat) : string :=
  ("https://www.sec.gov/cgi-bin/browse-edgar?action=getcurrent"
   ++ "&datea=&dateb=&company=&type=8-k&SIC=&State=&Country=&CIK=&owner="
   ++ "include&accno=&start=" ++ str_of_nat index
   ++ "&count=" ++ str_of_nat FILINGS_PER_PAGE)%string.

(** The row that [get_filing_info] returns for a filing, without the
    newline that ends it. *)
Record filing : Type := {
  company : string;
  date_time : string;
  full_url : string
}.

Definition filing_row (f : filing) : string :=
  ("|" ++ company f ++ "|" ++ date_time f ++ "|" ++ full_url f ++ "|")%string.

(** ** HTTP and logging *)

Record response : Type := {
  status_code : nat;
  ETag : option string;
  text : string
}.

(** What a call of [requests] comes back with: a response, or one of the
    two exceptions the script catches ([requests.Timeout] is a
    [RequestException]). *)
Inductive http : Type :=
| Reply (r : response)
| Timeout (e : string)
| RequestException (e : string).

Inductive level : Type := INFO | WARNING | ERROR.

Definition log : Type := list (level * string).

(** How far a call got: it returned, it left through an exception nothing
    catches, or the model's fuel ran out while it was still looping. *)
Inductive outcome (A : Type) : Type :=
| Returned (a : A)
| Raised (e : exn)
| Pending.

Arguments Returned {A} a.
Arguments Raised {A} e.
Arguments Pending {A}.

(** A call together with what it did on the way: the URLs it requested, in
    order, and the lines it logged. *)
Record run (A : Type) : Type := {
  result_of : outcome A;
  requests : list string;
  logged : log
}.

Arguments result_of {A} r.
Arguments requests {A} r.
Arguments logged {A} r.

(** ** The stored document: [get_exisiting_entries] and
    [update_github_file] *)

Definition get_exisiting_entries (now : string) (github_get : http)
  : (option (list string) * option string) * log :=
  match github_get with
  | Reply r =>
      if Nat.eqb (status_code r) 200 then
        let current_sha := ETag r in
        let current_content := remove_char CR (text r) in
        let current_content_as_strings := splitlines current_content in
        let bottom_half :=
          skipn (count_char LF (HEADING now)) current_content_as_strings in
        ((Some bottom_half, current_sha), [])
      else
        ((None, None), [(INFO, (FILE_PATH ++ " doesn't exist")%string)])
  | Timeout e | RequestException e =>
      ((None, None),
       [(ERROR, ("An error occurred during the request: " ++ e)%string)])
  end.

(** The JSON body of the PUT request. *)
Record payload : Type := {
  message : string;
  content : string;
  sha : option string
}.

(** Truth value of [current_sha]: [None] and the empty string are falsy. *)
Definition truthy (current_sha : option string) : bool :=
  match current_sha with
  | Some s => negb (String.eqb s EmptyString)
  | None => false
  end.

Definition full_content (now entries_to_file : string) : string :=
  (HEADING now ++ entries_to_file)%string.

Definition put_payload (now entries_to_file : string)
  (current_sha : option string) : payload :=
  {| message :=
       if truthy current_sha then ("Update " ++ FILE_PATH)%string
       else ("Create " ++ FILE_PATH)%string;
     content := b64encode (full_content now entries_to_file);
     sha :=
       match current_sha with
       | Some s => if truthy current_sha then Some (strip DQUOTE s) else None
       | None => None
       end |}.

(** [github_put] is the store answering the PUT; an exception of
    [requests.put] is not caught. *)
Definition update_github_file (github_put : payload -> http)
  (now entries_to_file : string) (current_sha : option string)
  : run payload :=
  let request := put_payload now entries_to_file current_sha in
  match github_put request with
  | Reply r =>
      {| result_of := Returned request;
         requests := [];
         logged :=
           if Nat.eqb (status_code r) 200 then
             [(INFO, ("Updated " ++ FILE_PATH ++ " successfully." ++ NL)%string)]
           else if Nat.eqb (status_code r) 201 then
             [(INFO, ("Created " ++ FILE_PATH ++ " successfully." ++ NL)%string)]
           else
             [(ERROR,
               ("Error interacting with " ++ FILE_PATH
                ++ ". HTTP Status Code: " ++ str_of_nat (status_code r)
                ++ ", Response: " ++ text r ++ NL)%string)] |}
  | Timeout _ | RequestException _ =>
      {| result_of := Raised RequestError; requests := []; logged := [] |}
  end.

(** ** The listing: [get_8ks] *)

Section Paginator.

(** The HTML library: parsed documents, their elements, and the lookups
    the script makes on them. *)
Variable soup : Type.
Variable tag : Type.
Variable BeautifulSoup : string -> soup.
Variable find_all_tr : soup -> list tag.
Variable get_text : tag -> string.
(** [soup.find('input', {'value': v})] found an element. *)
Variable find_input : soup -> string -> bool.

(** [get_filing_info] on a pair of rows: the table row of the filing, or
    an exception when an element it expects is missing. *)
Variable get_filing_info : tag * tag -> result string.

(** The SEC site: the answer to the [n]-th request of the run, made for
    a URL. *)
Variable session_get : nat -> string -> http.

(** [zip(tr_elements, tr_elements[1:])]. *)
Definition row_pairs (tr_elements : list tag) : list (tag * tag) :=
  combine tr_elements (tl tr_elements).

Definition has_item (pair : tag * tag) : bool :=
  let text := get_text (snd pair) in
  contains "Current report" text && contains ITEM text.

Definition tr_elements_with_item (tr_elements : list tag)
  : list (tag * tag) :=
  filter has_item (row_pairs tr_elements).

(** [for tr_element in ...: relevant_filings += get_filing_info(...)]. *)
Fixpoint add_filings (relevant_filings : string)
  (elements : list (tag * tag)) : result string :=
  match elements with
  | [] => Ok relevant_filings
  | tr_element :: rest =>
      row <- get_filing_info tr_element ;;
      add_filings (relevant_filings ++ row)%string rest
  end.

Definition has_next (page_soup : soup) : bool :=
  find_input page_soup ("Next " ++ str_of_nat FILINGS_PER_PAGE)%string.

(** One more request made and lines logged before the rest of a run. *)
Definition after_request {A : Type} (url : string) (lines : log)
  (rest : run A) : run A :=
  {| result_of := result_of rest;
     requests := url :: requests rest;
     logged := lines ++ logged rest |}.

Definition stop {A : Type} (o : outcome A) : run A :=
  {| result_of := o; requests := []; logged := [] |}.

(** The [while True] loop, one iteration per unit of fuel. [page] and
    [index] are the loop variables on entry to the iteration. *)
Fixpoint get_8ks_loop (fuel page index : nat) (relevant_filings : string)
  : run (option string) :=
  match fuel with
  | O => stop Pending
  | S fuel' =>
      let page := page + 1 in
      let checking :=
        (INFO,
         ("Checking 'latest filings' page " ++ str_of_nat page ++ ".")%string)
      in
      let page_url := get_sec_url index in
      match session_get page page_url with
      | Reply response =>
          if negb (Nat.eqb (status_code response) 200) then
            after_request page_url
              [checking;
               (ERROR,
                ("Failed to load SEC data (code: "
                 ++ str_of_nat (status_code response)
                 ++ ") for URL: " ++ page_url)%string)]
              (stop (Returned None))
          else
            let page_soup := BeautifulSoup (text response) in
            let tr_elements := find_all_tr page_soup in
            match add_filings relevant_filings
                    (tr_elements_with_item tr_elements) with
            | Raise e => after_request page_url [checking] (stop (Raised e))
            | Ok relevant_filings =>
                if negb (has_next page_soup) then
                  after_request page_url [checking]
                    (stop (Returned (Some relevant_filings)))
                else
                  after_request page_url [checking]
                    (get_8ks_loop fuel' page (index + FILINGS_PER_PAGE)
                       relevant_filings)
            end
      | Timeout _ =>
          after_request page_url
            [checking;
             (WARNING,
              ("Request to " ++ page_url ++ " timed out after "
               ++ str_of_nat SEC_TIMEOUT ++ " seconds.")%string)]
            (get_8ks_loop fuel' page index relevant_filings)
      | RequestException e =>
          after_request page_url
            [checking;
             (WARNING,
              ("Request to " ++ page_url ++ " encountered an exception: "
               ++ e)%string)]
            (get_8ks_loop fuel' page index relevant_filings)
      end
  end.

Definition get_8ks (fuel : nat) : run (option string) :=
  get_8ks_loop fuel 0 0 EmptyString.

(** [main]: fetch, read the stored document, merge, write. [None] has no
    [splitlines], and an [IndexError] of the merge is not caught. *)
Definition main (fuel : nat) (now : string) (github_get : http)
  (github_put : payload -> http) : run payload :=
  let fetch := get_8ks fuel in
  let log1 := (INFO, "Retrieving new SEC filings.") :: logged fetch in
  let leave (o : outcome payload) (lines : log) : run payload :=
    {| result_of := o; requests := requests fetch; logged := lines |} in
  match result_of fetch with
  | Pending => leave Pending log1
  | Raised e => leave (Raised e) log1
  | Returned new_entries_string =>
      let log2 :=
        log1 ++ [(INFO, ("Done retrieving new SEC filings." ++ NL)%string)] in
      match new_entries_string with
      | None => leave (Raised AttributeError) log2
      | Some new_entries_string =>
          let new_entries_list := splitlines new_entries_string in
          let '((existing_entries_list, current_sha), read_log) :=
            get_exisiting_entries now github_get in
          let log3 :=
            log2
            ++ [(INFO,
                 ("Retrieving existing SEC filings from " ++ FILE_PATH
                  ++ ".")%string)]
            ++ read_log
            ++ [(INFO,
                 ("Done retrieving existing SEC filings from " ++ FILE_PATH
                  ++ "." ++ NL)%string);
                (INFO, "Creating final list of filings.")] in
          match get_final_string new_entries_list existing_entries_list with
          | Raise e => leave (Raised e) log3
          | Ok all_entries_string =>
              let write :=
                update_github_file github_put now all_entries_string
                  current_sha in
              leave (result_of write)
                (log3
                 ++ [(INFO,
                      ("Done creating final list of filings." ++ NL)%string);
                     (INFO,
                      ("Saving new filings to " ++ FILE_PATH ++ ".")%string)]
                 ++ logged write)
          end
      end
  end.

End Paginator.

(** ** The extraction: [get_filing_info] *)

(** Number of bytes of the whitespace character at the front of [s], 0
    when [s] does not start with one. Whitespace is what [str.isspace],
    [str.strip()] and the pattern [\s] take it to be: U+0009 to U+000D,
    U+001C to U+0020, U+0085, U+00A0, U+1680, U+2000 to U+200A, U+2028,
    U+2029, U+202F, U+205F and U+3000. *)
Definition whitespace_len (s : string) : nat :=
  match s with
  | EmptyString => 0
  | String c1 rest =>
      let n1 := nat_of_ascii c1 in
      if (Nat.leb 9 n1 && Nat.leb n1 13) || (Nat.leb 28 n1 && Nat.leb n1 32) then 1
      else
        match rest with
        | EmptyString => 0
        | String c2 rest2 =>
            let n2 := nat_of_ascii c2 in
            if Nat.eqb n1 194 then
              if Nat.eqb n2 133 || Nat.eqb n2 160 then 2 else 0
            else
              match rest2 with
              | EmptyString => 0
              | String c3 _ =>
                  let n3 := nat_of_ascii c3 in
                  if Nat.eqb n1 225 then
                    if Nat.eqb n2 154 && Nat.eqb n3 128 then 3 else 0
                  else if Nat.eqb n1 226 then
                    if Nat.eqb n2 128
                       && ((Nat.leb 128 n3 && Nat.leb n3 138)
                           || Nat.eqb n3 168 || Nat.eqb n3 169
                           || Nat.eqb n3 175)
                    then 3
                    else if Nat.eqb n2 129 && Nat.eqb n3 159 then 3 else 0
                  else if Nat.eqb n1 227 then
                    if Nat.eqb n2 128 && Nat.eqb n3 128 then 3 else 0
                  else 0
              end
        end
  end.

(** Number of bytes of the longest run of whitespace characters at the
    front of [s]; [skip] counts the bytes of a character still to be
    passed over. *)
Fixpoint whitespace_span (skip : nat) (s : string) : nat :=
  match s with
  | EmptyString => 0
  | String _ s' =>
      match skip with
      | S k => S (whitespace_span k s')
      | O =>
          match whitespace_len s with
          | O => 0
          | S k => S (whitespace_span k s')
          end
      end
  end.

(** [s[n:]]. *)
Fixpoint drop (n : nat) (s : string) : string :=
  match n, s with
  | O, _ => s
  | S _, EmptyString => EmptyString
  | S k, String _ s' => drop k s'
  end.

(** [s.lstrip()], [s.rstrip()] and [s.strip()]. *)
Definition lstrip_ws (s : string) : string := drop (whitespace_span 0 s) s.

Definition all_whitespace (s : string) : bool :=
  Nat.eqb (whitespace_span 0 s) (String.length s).

Fixpoint rstrip_ws (s : string) : string :=
  match s with
  | EmptyString => EmptyString
  | String c s' => if all_whitespace s then EmptyString else String c (rstrip_ws s')
  end.

Definition strip_ws (s : string) : string := rstrip_ws (lstrip_ws s).

(** Where the first [)] of [s] is: the number of bytes before it and the
    text after it. *)
Fixpoint find_close (s : string) : option (nat * string) :=
  match s with
  | EmptyString => None
  | String c s' =>
      if Ascii.eqb c ")"%char then Some (0, s')
      else match find_close s' with
           | Some (n, after) => Some (S n, after)
           | None => None
           end
  end.

(** Number of bytes that the pattern [\([^)]*\) \(Filer\)\s*] matches at
    the front of [s], 0 when it does not match there. [[^)]*] ends at the
    first [)], and [\s*] takes all the whitespace that follows. *)
Definition filer_match (s : string) : nat :=
  match s with
  | String c s1 =>
      if Ascii.eqb c "("%char then
        match find_close s1 with
        | Some (n, after) =>
            if String.prefix " (Filer)" after
            then 1 + n + 1 + 8 + whitespace_span 0 (drop 8 after)
            else 0
        | None => 0
        end
      else 0
  | EmptyString => 0
  end.

(** [re.sub(r'\([^)]*\) \(Filer\)\s*', '', s)]: every match, leftmost
    first and not overlapping, is taken out; [skip] counts the bytes of a
    match still to be passed over. *)
Fixpoint sub_filer (skip : nat) (s : string) : string :=
  match s with
  | EmptyString => EmptyString
  | String c s' =>
      match skip with
      | S k => sub_filer k s'
      | O =>
          match filer_match s with
          | O => String c (sub_filer 0 s')
          | S k => sub_filer k s'
          end
      end
  end.

Module Extractor.

Section Rows.

(** The HTML and date libraries. [find_a] is the text of the first [<a>]
    of a row, [find_td] the text of its [nowrap] cell with a [<br>], and
    [find_html] the [href] of its link labelled [[html]]; each is [None]
    when the element is not there, and [find_html] gives [Some None] when
    the link has no [href]. [reformat] parses with
    [%Y-%m-%d%H:%M:%S] and prints with [%Y-%m-%d %H:%M:%S], or raises. *)
Variable tag : Type.
Variable find_a : tag -> option string.
Variable find_td : tag -> option string.
Variable find_html : tag -> option (option string).
Variable reformat : string -> result string.

Definition get_filing_info (element : tag * tag) : result string :=
  match find_a (fst element) with
  | None => Raise AttributeError
  | Some company =>
      let company := strip_ws (sub_filer 0 company) in
      match find_td (snd element) with
      | None => Raise AttributeError
      | Some date_time =>
          date_time <- reformat date_time ;;
          match find_html (snd element) with
          | None => Raise AttributeError
          | Some href =>
              let full_url :=
                ("[link](https://www.sec.gov"
                 ++ match href with
                    | Some path => path
                    | None => "None"
                    end
                 ++ ")")%string in
              Ok ("|" ++ company ++ "|" ++ date_time ++ "|" ++ full_url
                  ++ "|" ++ NL)%string
          end
      end
  end.

End Rows.

End Extractor.

(** The place of a character in the base64 alphabet (64 when it is not in
    it), and the bytes of a base64 text: the inverse of [b64_groups],
    used to show that the encoding loses nothing. *)
Fixpoint index_of (c : ascii) (s : string) : nat :=
  match s with
  | EmptyString => 0
  | String a s' => if Ascii.eqb a c then 0 else S (index_of c s')
  end.

Definition b64_value (c : ascii) : nat := index_of c b64_alphabet.

Fixpoint b64_bytes (s : string) : list nat :=
  match s with
  | String c1 (String c2 (String c3 (String c4 rest))) =>
      let v1 := b64_value c1 in
      let v2 := b64_value c2 in
      let v3 := b64_value c3 in
      let v4 := b64_value c4 in
      if Ascii.eqb c3 "="%char then [v1 * 4 + v2 / 16]
      else if Ascii.eqb c4 "="%char
           then [v1 * 4 + v2 / 16; (v2 mod 16) * 16 + v3 / 4]
           else (v1 * 4 + v2 / 16) :: ((v2 mod 16) * 16 + v3 / 4)
                :: ((v3 mod 4) * 64 + v4) :: b64_bytes rest
  | _ => []
  end.

(** ** Predicates of the statements *)

(** The entry has a timestamp column. *)
Definition has_timestamp (entry : string) : bool :=
  match entry_timestamp entry with
  | Ok _ => true
  | Raise _ => false
  end.

(** The entry has a timestamp, and it is greater than [cutoff]. *)
Definition newer_than (cutoff entry : string) : bool :=
  match entry_timestamp entry with
  | Ok ts => str_gt ts cutoff
  | Raise _ => false
  end.

(** The entry has a timestamp, and it is at most [cutoff]. *)
Definition not_newer_than (cutoff entry : string) : bool :=
  match entry_timestamp entry with
  | Ok ts => str_le ts cutoff
  | Raise _ => false
  end.

(** The longest front part of [entries] that is all newer than [cutoff]. *)
Fixpoint newer_prefix (cutoff : string) (entries : list string)
  : list string :=
  match entries with
  | [] => []
  | entry :: rest =>
      if newer_than cutoff entry then entry :: newer_prefix cutoff rest
      else []
  end.

(** Newest first: each entry has a timestamp, and no entry is newer than
    the one before it. *)
Fixpoint newest_first (entries : list string) : bool :=
  match entries with
  | [] => true
  | entry :: rest =>
      has_timestamp entry
      && match rest with
         | [] => true
         | next :: _ =>
             match entry_timestamp entry with
             | Ok ts => not_newer_than ts next
             | Raise _ => false
             end
         end
      && newest_first rest
  end.

(** Every character of [s] is [c]. *)
Fixpoint all_char (c : ascii) (s : string) : bool :=
  match s with
  | EmptyString => true
  | String a s' => Ascii.eqb a c && all_char c s'
  end.

Definition starts_with (c : ascii) (s : string) : bool :=
  match s with
  | EmptyString => false
  | String a _ => Ascii.eqb a c
  end.

Fixpoint ends_with (c : ascii) (s : string) : bool :=
  match s with
  | EmptyString => false
  | String a EmptyString => Ascii.eqb a c
  | String _ s' => ends_with c s'
  end.

(** The request failed in transit: no response came back. *)
Definition no_reply (h : http) : bool :=
  match h with
  | Reply _ => false
  | Timeout _ | RequestException _ => true
  end.

(** No line boundary starts anywhere in [s]: [s] is one line, or empty. *)
Fixpoint plain (s : string) : bool :=
  match s with
  | EmptyString => true
  | String _ s' => Nat.eqb (line_boundary s) 0 && plain s'
  end.

(** A byte that can end a line boundary of several bytes. *)
Definition closes_boundary (x : ascii) : bool :=
  Ascii.eqb x "133"%char || Ascii.eqb x "128"%char
  || Ascii.eqb x "168"%char || Ascii.eqb x "169"%char.

Definition plain_filing (f : filing) : bool :=
  plain (company f) && plain (date_time f) && plain (full_url f).

(** The character [c] does not occur in [s]. *)
Fixpoint free_of (c : ascii) (s : string) : bool :=
  match s with
  | EmptyString => true
  | String a s' => negb (Ascii.eqb a c) && free_of c s'
  end.

(** The five lines of [HEADING]. *)
Definition heading_lines (now : string) : list string :=
  [("# List of Form 8-Ks with item " ++ ITEM)%string;
   ("Last checked " ++ now)%string;
   EmptyString;
   "|Company|Timestamp|Link|";
   "|---|---|---|"].

(** The stored document as the store returns it after a write of
    [entries]. *)
Definition stored (now : string) (etag : option string)
  (entries : list string) : http :=
  Reply {| status_code := 200; ETag := etag;
           text := full_content now (join NL entries) |}.

(** The URL of the [k]-th page of the listing, counted from 0. *)
Definition page_url (k : nat) : string := get_sec_url (k * FILINGS_PER_PAGE).

(** A stand-in for the HTML library on plain text: a document is its text,
    its rows are its lines, and an input with a given value is there when
    the value occurs in the text. *)
Module PlainText.

Definition soup : Type := string.
Definition tag : Type := string.
Definition BeautifulSoup (markup : string) : soup := markup.
Definition find_all_tr (s : soup) : list tag := splitlines s.
Definition get_text (t : tag) : string := t.
Definition find_input (s : soup) (value : string) : bool := contains value s.
Definition get_filing_info (element : tag * tag) : result string :=
  Ok ("|" ++ fst element
      ++ "|2024-01-03 09:00:00|[link](https://www.sec.gov/a3.htm)|" ++ NL)%string.

Definition get_8ks (session_get : nat -> string -> http) (fuel : nat)
  : run (option string) :=
  get_8ks soup tag BeautifulSoup find_all_tr get_text find_input
    get_filing_info session_get fuel.

End PlainText.

(** No field of the filing holds a [|]. *)
Definition pipe_free_filing (f : filing) : bool :=
  free_of PIPE (company f) && free_of PIPE (date_time f)
  && free_of PIPE (full_url f).

(** The filing that a row stands for, its three columns read the way the
    merge reads the timestamp: [row.split('|')[1]], [[2]] and [[3]]. *)
Definition row_filing (row : string) : result filing :=
  name <- field 1 row ;;
  ts <- field 2 row ;;
  link <- field 3 row ;;
  Ok {| company := name; date_time := ts; full_url := link |}.

(** ** Sample data *)

Definition acme_jan3 : string :=
  filing_row {| company := "Acme Corp"; date_time := "2024-01-03 09:00:00";
                full_url := "[link](https://www.sec.gov/a3.htm)" |}.

Definition bolt_jan2 : string :=
  filing_row {| company := "Bolt Inc"; date_time := "2024-01-02 10:00:00";
                full_url := "[link](https://www.sec.gov/b2.htm)" |}.

Definition cask_jan1 : string :=
  filing_row {| company := "Cask LLC"; date_time := "2024-01-01 08:00:00";
                full_url := "[link](https://www.sec.gov/c1.htm)" |}.

(** An entity tag as GitHub sends it: a hash between double quotes. *)
Definition quoted_etag : string :=
  String DQUOTE ("3f2a9c" ++ String DQUOTE EmptyString)%string.

Definition checked_at : string := "2024-01-04 12:00:00".

Definition server_error : response :=
  {| status_code := 500; ETag := None; text := "Internal Server Error" |}.

Definition not_found : response :=
  {| status_code := 404; ETag := None; text := "Not Found" |}.

(** A filing whose company name was scraped with a carriage return in
    it. *)
Definition acme_cr : filing :=
  {| company := ("Acme" ++ String CR "Corp")%string;
     date_time := "2024-01-03 09:00:00";
     full_url := "[link](https://www.sec.gov/a3.htm)" |}.

Definition acme : filing :=
  {| company := "Acme Corp";
     date_time := "2024-01-03 09:00:00";
     full_url := "[link](https://www.sec.gov/a3.htm)" |}.

Definition bolt : filing :=
  {| company := "Bolt Inc";
     date_time := "2024-01-02 10:00:00";
     full_url := "[link](https://www.sec.gov/b2.htm)" |}.

Definition first_page : string :=
  ("Acme Corp" ++ NL ++ "8-K Current report, items 1.05 and 9.01" ++ NL
   ++ "Next 100")%string.

Definition last_page : string :=
  ("Bolt Inc" ++ NL ++ "8-K Current report, items 5.02" ++ NL)%string.

Definition ok_page (markup : string) : http :=
  Reply {| status_code := 200; ETag := None; text := markup |}.

(** A listing of two pages. *)
Definition two_pages (n : nat) (url : string) : http :=
  if String.eqb url (page_url 0) then ok_page first_page
  else if String.eqb url (page_url 1) then ok_page last_page
  else Reply not_found.

(** A listing of one page whose first request times out. *)
Definition slow_start (n : nat) (url : string) : http :=
  if Nat.eqb n 1 then Timeout "read timed out" else ok_page last_page.

(** A site that never answers. *)
Definition silent (n : nat) (url : string) : http := Timeout "read timed out".

(** The rows that the plain-text extraction gives for [first_page]. *)
Definition first_page_rows : string :=
  ("|Acme Corp|2024-01-03 09:00:00|[link](https://www.sec.gov/a3.htm)|"
   ++ NL)%string.

(** A listing whose every page shows the next control. *)
Definition endless (n : nat) (url : string) : http := ok_page first_page.

(** A listing whose second page does not load. *)
Definition broken_second (n : nat) (url : string) : http :=
  if String.eqb url (page_url 0) then ok_page first_page
  else Reply server_error.

(** An extraction that finds no link in the row. *)
Definition no_anchor (element : PlainText.tag * PlainText.tag)
  : result string := Raise AttributeError.

(** A store that takes every write, and one that refuses every write. *)
Definition accept_write (request : payload) : http :=
  Reply {| status_code := 200; ETag := None; text := "{}" |}.


(** A stand-in for the rows of a listing: what the three lookups of the
    extraction find in a row. *)
Record sample_row : Type := {
  anchor : option string;
  cell : option string;
  html_href : option (option string)
}.

(** A stand-in for the two date calls on a well-formed date. *)
Definition sample_reformat (s : string) : result string :=
  if Nat.eqb (String.length s) 18
  then Ok (substring 0 10 s ++ " " ++ substring 10 8 s)%string
  else Raise ValueError.

Definition acme_name_row : sample_row :=
  {| anchor := Some ("Acme Corp (0001234567) (Filer)" ++ NL)%string;
     cell := None;
     html_href := None |}.

Definition acme_data_row : sample_row :=
  {| anchor := None;
     cell := Some "2024-01-0309:00:00";
     html_href := Some (Some "/a3.htm") |}.

(** Two filings with a [|] in a field, which render to the same row. *)
Definition pipe_in_name : filing :=
  {| company := "Abbott|Barnes";
     date_time := "2024-01-03 09:00:00";
     full_url := "[link](https://www.sec.gov/a3.htm)" |}.

Definition pipe_in_date : filing :=
  {| company := "Abbott";
     date_time := "Barnes|2024-01-03 09:00:00";
     full_url := "[link](https://www.sec.gov/a3.htm)" |}.

(** ** Facts about the string order *)

Lemma str_gt_irrefl (a : string) : str_gt a a = false.
Proof.
  unfold str_gt. pose proof (String.compare_antisym a a) as E.
  destruct (String.compare a a); simpl in E; congruence.
Qed.

Lemma str_le_refl (a : string) : str_le a a = true.
Proof. unfold str_le. rewrite str_gt_irrefl. reflexivity. Qed.

Lemma str_gt_le (a b : string) : str_gt a b = true -> str_le b a = true.
Proof.
  unfold str_le, str_gt. rewrite (String.compare_antisym b a).
  destruct (String.compare a b); simpl; congruence.
Qed.

(** ** Facts about the scan *)

Lemma newer_than_has_timestamp (cutoff entry : string) :
  newer_than cutoff entry = true -> has_timestamp entry = true.
Proof.
  unfold newer_than, has_timestamp.
  destruct (entry_timestamp entry); congruence.
Qed.

Lemma newer_or_not (cutoff entry : string) :
  has_timestamp entry = true ->
  newer_than cutoff entry = negb (not_newer_than cutoff entry).
Proof.
  unfold has_timestamp, newer_than, not_newer_than, str_le.
  destruct (entry_timestamp entry); [|discriminate].
  intros _. rewrite negb_involutive. reflexivity.
Qed.

Lemma scan_new_kept (cutoff : string) (kept rest : list string) :
  forallb (newer_than cutoff) kept = true ->
  scan_new cutoff (kept ++ rest)
  = (tail <- scan_new cutoff rest ;; Ok (kept ++ tail)).
Proof.
  induction kept as [|e kept IH]; simpl; intros H.
  - destruct (scan_new cutoff rest); reflexivity.
  - apply andb_prop in H as [He Hk].
    unfold newer_than in He.
    destruct (entry_timestamp e) as [ts|]; [|discriminate]. simpl.
    rewrite He, (IH Hk).
    destruct (scan_new cutoff rest); reflexivity.
Qed.

Lemma scan_new_break (cutoff e : string) (rest : list string) :
  not_newer_than cutoff e = true -> scan_new cutoff (e :: rest) = Ok [].
Proof.
  unfold not_newer_than, str_le. simpl.
  destruct (entry_timestamp e) as [ts|]; [|discriminate]. simpl.
  destruct (str_gt ts cutoff); [discriminate|reflexivity].
Qed.

(** The scan, when it stops where the newer front part ends. *)
Lemma scan_new_split (cutoff : string) (kept rest : list string) :
  forallb (newer_than cutoff) kept = true ->
  match rest with
  | [] => True
  | e :: _ => not_newer_than cutoff e = true
  end ->
  scan_new cutoff (kept ++ rest) = Ok kept.
Proof.
  intros Hk Hr. rewrite (scan_new_kept _ _ _ Hk).
  destruct rest as [|e rest'].
  - simpl. rewrite app_nil_r. reflexivity.
  - rewrite (scan_new_break _ _ _ Hr). simpl. rewrite app_nil_r. reflexivity.
Qed.

Lemma newer_prefix_split (cutoff : string) (entries : list string) :
  forallb has_timestamp entries = true ->
  exists rest,
    entries = newer_prefix cutoff entries ++ rest
    /\ forallb (newer_than cutoff) (newer_prefix cutoff entries) = true
    /\ match rest with
       | [] => True
       | e :: _ => not_newer_than cutoff e = true
       end.
Proof.
  induction entries as [|e entries IH]; simpl; intros H.
  - exists []. auto.
  - apply andb_prop in H as [He Hes].
    destruct (newer_than cutoff e) eqn:N.
    + destruct (IH Hes) as (rest & E & F & R).
      exists rest. simpl. rewrite N, F. rewrite <- E. auto.
    + exists (e :: entries). simpl. repeat split.
      rewrite (newer_or_not _ _ He) in N.
      destruct (not_newer_than cutoff e); [reflexivity|discriminate].
Qed.

Lemma final_list_split (first cutoff : string) (old_rest kept rest : list string) :
  entry_timestamp first = Ok cutoff ->
  forallb (newer_than cutoff) kept = true ->
  match rest with
  | [] => True
  | e :: _ => not_newer_than cutoff e = true
  end ->
  final_list (kept ++ rest) (Some (first :: old_rest))
  = Ok (kept ++ first :: old_rest).
Proof.
  intros Hc Hk Hr. unfold final_list. rewrite Hc. simpl.
  rewrite (scan_new_split _ _ _ Hk Hr). reflexivity.
Qed.

Lemma scan_new_own_head (e ts : string) (rest : list string) :
  entry_timestamp e = Ok ts -> scan_new ts (e :: rest) = Ok [].
Proof.
  intros H. apply scan_new_break. unfold not_newer_than.
  rewrite H. apply str_le_refl.
Qed.

(** Merging again into a list that starts with an entry of [new_entries]'s
    own head adds nothing. *)
Lemma final_list_own_head (e : string) (rest merged_rest : list string) :
  has_timestamp e = true ->
  final_list (e :: rest) (Some (e :: merged_rest)) = Ok (e :: merged_rest).
Proof.
  unfold has_timestamp, final_list. intros H.
  destruct (entry_timestamp e) as [ts|] eqn:E; [|discriminate].
  cbn [Py.bind]. rewrite (scan_new_own_head _ _ _ E). reflexivity.
Qed.

Lemma newest_first_tail (e : string) (l : list string) :
  newest_first (e :: l) = true -> newest_first l = true.
Proof.
  intros H. simpl in H. apply andb_prop in H as [_ H]. exact H.
Qed.

Lemma newest_first_has_timestamp (l : list string) :
  newest_first l = true -> forallb has_timestamp l = true.
Proof.
  induction l as [|e l IH]; [reflexivity|]. intros H.
  pose proof (newest_first_tail _ _ H) as Ht.
  simpl in H. apply andb_prop in H as [H _]. apply andb_prop in H as [H _].
  simpl. rewrite H, (IH Ht). reflexivity.
Qed.

Lemma newest_first_prefix (kept rest : list string) :
  newest_first (kept ++ rest) = true -> newest_first kept = true.
Proof.
  induction kept as [|e kept IH]; [reflexivity|]. intros H.
  pose proof (IH (newest_first_tail _ _ H)) as Hk.
  simpl in H. apply andb_prop in H as [H _]. apply andb_prop in H as [Ht Hn].
  simpl. rewrite Ht, Hk. destruct kept as [|k kept]; [reflexivity|].
  simpl in Hn. rewrite Hn. reflexivity.
Qed.

(** The newer front part of the new entries, put before the old ones, keeps
    the whole list newest first. *)
Lemma newest_first_join (cutoff first : string) (old_rest kept : list string) :
  entry_timestamp first = Ok cutoff ->
  newest_first (first :: old_rest) = true ->
  newest_first kept = true ->
  forallb (newer_than cutoff) kept = true ->
  newest_first (kept ++ first :: old_rest) = true.
Proof.
  intros Hc Ho. induction kept as [|e kept IH]; intros Hk Hn; [exact Ho|].
  pose proof (newest_first_tail _ _ Hk) as Hk'.
  simpl in Hn. apply andb_prop in Hn as [He Hn].
  specialize (IH Hk' Hn).
  simpl in Hk. apply andb_prop in Hk as [Hk _]. apply andb_prop in Hk as [Ht Hx].
  change ((e :: kept) ++ first :: old_rest) with (e :: (kept ++ first :: old_rest)).
  cbn [newest_first]. rewrite Ht, IH, andb_true_r. cbn [andb].
  destruct kept as [|k kept]; [|exact Hx].
  cbn [app]. unfold newer_than in He.
  destruct (entry_timestamp e) as [ts|]; [|discriminate].
  unfold not_newer_than. rewrite Hc. apply str_gt_le. exact He.
Qed.

Lemma newer_is_not_older (cutoff e : string) :
  newer_than cutoff e = true -> not_newer_than cutoff e = false.
Proof.
  intros H. rewrite (newer_or_not _ _ (newer_than_has_timestamp _ _ H)) in H.
  destruct (not_newer_than cutoff e); [discriminate|reflexivity].
Qed.

(** ** The merge: claims *)

(** C1. With a non-empty old list whose first entry has timestamp [cutoff],
    the merge keeps exactly the longest front part of the new entries whose
    timestamps are greater than [cutoff], stops at the first entry that is
    not (whatever follows it is never looked at), and returns that front
    part followed by the whole old list. In particular, for an old entry of
    2024-01-02 10:00:00 and new entries of 2024-01-03 09:00:00,
    2024-01-02 10:00:00 and a third one, the result is the first new entry
    followed by the old one. *)
Theorem merge_newer_prefix_then_old :
  (forall (first cutoff : string) (old_rest new_entries : list string),
      entry_timestamp first = Ok cutoff ->
      forallb has_timestamp new_entries = true ->
      exists kept rest,
        new_entries = kept ++ rest
        /\ forallb (newer_than cutoff) kept = true
        /\ match rest with
           | [] => True
           | e :: _ => not_newer_than cutoff e = true
           end
        /\ final_list new_entries (Some (first :: old_rest))
           = Ok (kept ++ first :: old_rest)
        /\ forall e tail unscanned,
             rest = e :: tail ->
             final_list (kept ++ e :: unscanned) (Some (first :: old_rest))
             = Ok (kept ++ first :: old_rest))
  /\ (forall old0 new0 new1 new2 : string,
         entry_timestamp old0 = Ok "2024-01-02 10:00:00" ->
         entry_timestamp new0 = Ok "2024-01-03 09:00:00" ->
         entry_timestamp new1 = Ok "2024-01-02 10:00:00" ->
         final_list [new0; new1; new2] (Some [old0]) = Ok [new0; old0]).
Proof.
  split.
  - intros first cutoff old_rest new_entries Hc Hn.
    destruct (newer_prefix_split cutoff new_entries Hn) as (rest & E & F & R).
    exists (newer_prefix cutoff new_entries), rest.
    repeat split; try assumption.
    + rewrite E at 1. apply (final_list_split first cutoff); assumption.
    + intros e tail unscanned ->.
      apply (final_list_split first cutoff); assumption.
  - intros old0 new0 new1 new2 H0 H1 H2.
    apply (final_list_split old0 _ [] [new0] [new1; new2] H0).
    + simpl. unfold newer_than. rewrite H1. reflexivity.
    + unfold not_newer_than. rewrite H2. reflexivity.
Qed.

Lemma merge_newer_prefix_then_old_witness :
  entry_timestamp bolt_jan2 = Ok "2024-01-02 10:00:00"
  /\ forallb has_timestamp [acme_jan3; bolt_jan2; cask_jan1] = true
  /\ final_list [acme_jan3; bolt_jan2; cask_jan1] (Some [bolt_jan2])
     = Ok [acme_jan3; bolt_jan2].
Proof.
  split; [reflexivity|]. split; [reflexivity|].
  apply (proj2 merge_newer_prefix_then_old); reflexivity.
Defined.

(** C6. The merge never drops a stored record: with a non-empty old list,
    the result is a front part of the new entries followed by the old list,
    whole and in its order. *)
Theorem merge_keeps_old_as_suffix
  (first : string) (old_rest new_entries : list string) :
  has_timestamp first = true ->
  forallb has_timestamp new_entries = true ->
  exists kept rest,
    new_entries = kept ++ rest
    /\ final_list new_entries (Some (first :: old_rest))
       = Ok (kept ++ first :: old_rest).
Proof.
  unfold has_timestamp at 1. intros Hf Hn.
  destruct (entry_timestamp first) as [cutoff|] eqn:Hc; [|discriminate].
  destruct (newer_prefix_split cutoff new_entries Hn) as (rest & E & F & R).
  exists (newer_prefix cutoff new_entries), rest. split; [exact E|].
  rewrite E at 1. apply (final_list_split first cutoff); assumption.
Qed.

Lemma merge_keeps_old_as_suffix_witness :
  exists kept rest,
    [acme_jan3; bolt_jan2] = kept ++ rest
    /\ final_list [acme_jan3; bolt_jan2] (Some [bolt_jan2; cask_jan1])
       = Ok (kept ++ [bolt_jan2; cask_jan1]).
Proof.
  apply (merge_keeps_old_as_suffix bolt_jan2 [cask_jan1] [acme_jan3; bolt_jan2]);
    reflexivity.
Defined.

(** C10. A run that extracts no new record leaves the stored records as
    they are: merging the empty list into a non-empty old list gives the
    old list, and the text written is its lines joined. *)
Theorem merge_nothing_new (first : string) (old_rest : list string) :
  has_timestamp first = true ->
  final_list [] (Some (first :: old_rest)) = Ok (first :: old_rest)
  /\ get_final_string [] (Some (first :: old_rest))
     = Ok (join NL (first :: old_rest)).
Proof.
  unfold has_timestamp, get_final_string, final_list. intros H.
  destruct (entry_timestamp first); [|discriminate]. split; reflexivity.
Qed.

Lemma merge_nothing_new_witness :
  final_list [] (Some [bolt_jan2; cask_jan1]) = Ok [bolt_jan2; cask_jan1]
  /\ get_final_string [] (Some [bolt_jan2; cask_jan1])
     = Ok (join NL [bolt_jan2; cask_jan1]).
Proof.
  apply (merge_nothing_new bolt_jan2 [cask_jan1]). reflexivity.
Defined.

(** Merging the same new entries a second time changes nothing; only
    timestamps are needed on the entries, not their order. *)
Lemma final_list_idempotent
  (new_entries : list string) (old_entries : option (list string)) :
  forallb has_timestamp new_entries = true ->
  match old_entries with
  | Some old => forallb has_timestamp old = true
  | None => True
  end ->
  exists merged,
    final_list new_entries old_entries = Ok merged
    /\ final_list new_entries (Some merged) = Ok merged.
Proof.
  intros Hn Ho.
  assert (Hnew : final_list new_entries (Some new_entries) = Ok new_entries).
  { destruct new_entries as [|e rest]; [reflexivity|].
    simpl in Hn. apply andb_prop in Hn as [He _].
    apply final_list_own_head. exact He. }
  destruct old_entries as [[|first old_rest]|].
  - exists new_entries. split; [reflexivity|exact Hnew].
  - simpl in Ho. apply andb_prop in Ho as [Hf _].
    unfold has_timestamp in Hf.
    destruct (entry_timestamp first) as [cutoff|] eqn:Hc; [|discriminate].
    destruct (newer_prefix_split cutoff new_entries Hn) as (rest & E & F & R).
    pose proof (final_list_split first cutoff old_rest _ rest Hc F R) as M.
    rewrite <- E in M.
    exists (newer_prefix cutoff new_entries ++ first :: old_rest).
    split; [exact M|].
    destruct (newer_prefix cutoff new_entries) as [|k kept] eqn:P.
    + exact M.
    + rewrite E. cbn [app]. apply final_list_own_head.
      simpl in F. apply andb_prop in F as [Fk _].
      exact (newer_than_has_timestamp _ _ Fk).
  - exists new_entries. split; [reflexivity|exact Hnew].
Qed.

(** C5. The merge is idempotent when the new list is unchanged between
    calls: for lists that are newest first, the merge returns a list, and
    merging the same new entries into that list returns it again. *)
Theorem merge_idempotent
  (new_entries : list string) (old_entries : option (list string)) :
  newest_first new_entries = true ->
  match old_entries with
  | Some old => newest_first old = true
  | None => True
  end ->
  exists merged,
    final_list new_entries old_entries = Ok merged
    /\ final_list new_entries (Some merged) = Ok merged.
Proof.
  intros Hn Ho. apply final_list_idempotent.
  - apply newest_first_has_timestamp. exact Hn.
  - destruct old_entries as [old|]; [|exact I].
    apply newest_first_has_timestamp. exact Ho.
Qed.

Lemma merge_idempotent_witness :
  exists merged,
    final_list [acme_jan3; bolt_jan2; cask_jan1] (Some [bolt_jan2; cask_jan1])
    = Ok merged
    /\ final_list [acme_jan3; bolt_jan2; cask_jan1] (Some merged) = Ok merged.
Proof.
  apply (merge_idempotent [acme_jan3; bolt_jan2; cask_jan1]
           (Some [bolt_jan2; cask_jan1])); reflexivity.
Defined.

(** C9. When both lists are newest first, so is the merge; with a
    non-empty old list the result is a front part of the new entries
    followed by the old list, and every entry of that front part is newer
    than the cutoff: no new entry at or below the cutoff is taken. *)
Theorem merge_newest_first
  (new_entries : list string) (old_entries : option (list string)) :
  newest_first new_entries = true ->
  match old_entries with
  | Some old => newest_first old = true
  | None => True
  end ->
  exists merged,
    final_list new_entries old_entries = Ok merged
    /\ newest_first merged = true
    /\ forall first old_rest cutoff,
         old_entries = Some (first :: old_rest) ->
         entry_timestamp first = Ok cutoff ->
         exists kept rest,
           new_entries = kept ++ rest
           /\ merged = kept ++ first :: old_rest
           /\ forallb (newer_than cutoff) kept = true
           /\ forall e, In e kept -> not_newer_than cutoff e = false.
Proof.
  intros Hn Ho.
  destruct old_entries as [[|first old_rest]|].
  - exists new_entries. repeat split; [exact Hn|]. intros; discriminate.
  - pose proof (newest_first_has_timestamp _ Ho) as Hto.
    simpl in Hto. apply andb_prop in Hto as [Hf _].
    unfold has_timestamp in Hf.
    destruct (entry_timestamp first) as [cutoff|] eqn:Hc; [|discriminate].
    destruct (newer_prefix_split cutoff new_entries
                (newest_first_has_timestamp _ Hn)) as (rest & E & F & R).
    pose proof (final_list_split first cutoff old_rest _ rest Hc F R) as M.
    rewrite <- E in M.
    exists (newer_prefix cutoff new_entries ++ first :: old_rest).
    split; [exact M|]. split.
    + apply (newest_first_join cutoff); try assumption.
      apply (newest_first_prefix _ rest). rewrite <- E. exact Hn.
    + intros first' old_rest' cutoff' Eq Hc'. injection Eq as <- <-.
      rewrite Hc in Hc'. injection Hc' as <-.
      exists (newer_prefix cutoff new_entries), rest.
      repeat split; try assumption.
      intros e He. apply newer_is_not_older.
      rewrite forallb_forall in F. exact (F e He).
  - exists new_entries. repeat split; [exact Hn|]. intros; discriminate.
Qed.

Lemma merge_newest_first_witness :
  exists merged,
    final_list [acme_jan3; bolt_jan2; cask_jan1] (Some [bolt_jan2; cask_jan1])
    = Ok merged
    /\ newest_first merged = true.
Proof.
  destruct (merge_newest_first [acme_jan3; bolt_jan2; cask_jan1]
              (Some [bolt_jan2; cask_jan1]) eq_refl eq_refl)
    as (merged & M & S & _).
  exists merged. split; assumption.
Defined.

(** ** The stored document: claims *)

Lemma append_assoc (a b c : string) :
  ((a ++ b) ++ c)%string = (a ++ (b ++ c))%string.
Proof. induction a as [|x a IH]; simpl; [reflexivity|]. rewrite IH. reflexivity. Qed.

Lemma append_empty_r (a : string) : (a ++ "")%string = a.
Proof. induction a as [|x a IH]; simpl; [reflexivity|]. rewrite IH. reflexivity. Qed.

Lemma lstrip_spec (c : ascii) (s : string) :
  exists l,
    s = (l ++ lstrip c s)%string
    /\ all_char c l = true
    /\ starts_with c (lstrip c s) = false.
Proof.
  induction s as [|a s IH].
  - exists EmptyString. repeat split.
  - simpl. destruct (Ascii.eqb a c) eqn:E.
    + destruct IH as (l & Hs & Ha & Hn). exists (String a l). simpl.
      rewrite E, Ha, <- Hs. repeat split. exact Hn.
    + exists EmptyString. simpl. rewrite E. repeat split.
Qed.

Lemma rstrip_spec (c : ascii) (s : string) :
  exists r,
    s = (rstrip c s ++ r)%string
    /\ all_char c r = true
    /\ ends_with c (rstrip c s) = false.
Proof.
  induction s as [|a s IH].
  - exists EmptyString. repeat split.
  - destruct IH as (r & Hs & Ha & Hn). simpl.
    destruct (rstrip c s) as [|b t] eqn:R.
    + simpl in Hs. subst r. destruct (Ascii.eqb a c) eqn:E.
      * exists (String a s). simpl. rewrite E, Ha. repeat split.
      * exists s. simpl. rewrite E. repeat split. exact Ha.
    + exists r. split; [|split].
      * rewrite Hs at 1. reflexivity.
      * exact Ha.
      * exact Hn.
Qed.

Lemma rstrip_starts_with (c : ascii) (s : string) :
  starts_with c s = false -> starts_with c (rstrip c s) = false.
Proof.
  destruct s as [|a s]; [reflexivity|]. simpl. intros E.
  destruct (rstrip c s); rewrite ?E; simpl; rewrite ?E; reflexivity.
Qed.

Lemma lstrip_id (c : ascii) (s : string) :
  starts_with c s = false -> lstrip c s = s.
Proof. destruct s as [|a s]; simpl; [reflexivity|]. intros ->. reflexivity. Qed.

Lemma rstrip_id (c : ascii) (s : string) :
  ends_with c s = false -> rstrip c s = s.
Proof.
  induction s as [|a s IH]; [reflexivity|]. simpl.
  destruct s as [|b t].
  - simpl. intros ->. reflexivity.
  - intros H. rewrite (IH H). reflexivity.
Qed.

(** What [strip] takes away is only the character, at the two ends. *)
Lemma strip_spec (c : ascii) (s : string) :
  exists l r,
    s = (l ++ strip c s ++ r)%string
    /\ all_char c l = true
    /\ all_char c r = true
    /\ starts_with c (strip c s) = false
    /\ ends_with c (strip c s) = false.
Proof.
  destruct (lstrip_spec c s) as (l & Hl & Al & Sl).
  destruct (rstrip_spec c (lstrip c s)) as (r & Hr & Ar & Er).
  exists l, r. unfold strip. repeat split; try assumption.
  - rewrite <- Hr. exact Hl.
  - apply rstrip_starts_with. exact Sl.
Qed.

Lemma truthy_nonempty (token : string) :
  token <> EmptyString -> truthy (Some token) = true.
Proof.
  intros H. unfold truthy. destruct (String.eqb_spec token EmptyString); [|reflexivity].
  contradiction.
Qed.

(** C4, as the code has it. A token that is present and not empty goes
    into the request with the double quotes at its two ends taken off and
    nothing else changed, and the write is an update; a token with no
    double quote at either end goes unchanged. Without a token, or with an
    empty one, the request carries no token and is a creation. The request
    handed to the store is this payload. *)
Theorem write_token_stripped (now entries_to_file : string) :
  (forall token : string,
      token <> EmptyString ->
      sha (put_payload now entries_to_file (Some token))
      = Some (strip DQUOTE token)
      /\ message (put_payload now entries_to_file (Some token))
         = "Update 8-Ks.md"
      /\ (exists l r,
             token = (l ++ strip DQUOTE token ++ r)%string
             /\ all_char DQUOTE l = true
             /\ all_char DQUOTE r = true
             /\ starts_with DQUOTE (strip DQUOTE token) = false
             /\ ends_with DQUOTE (strip DQUOTE token) = false)
      /\ (starts_with DQUOTE token = false ->
          ends_with DQUOTE token = false ->
          sha (put_payload now entries_to_file (Some token)) = Some token))
  /\ (forall current_sha : option string,
         current_sha = None \/ current_sha = Some EmptyString ->
         sha (put_payload now entries_to_file current_sha) = None
         /\ message (put_payload now entries_to_file current_sha)
            = "Create 8-Ks.md")
  /\ (forall (github_put : payload -> http) (current_sha : option string)
             (r : response),
         github_put (put_payload now entries_to_file current_sha) = Reply r ->
         result_of (update_github_file github_put now entries_to_file current_sha)
         = Returned (put_payload now entries_to_file current_sha)).
Proof.
  split; [|split].
  - intros token Hne.
    assert (S : sha (put_payload now entries_to_file (Some token))
                = Some (strip DQUOTE token)).
    { unfold put_payload. cbn [sha]. rewrite (truthy_nonempty _ Hne). reflexivity. }
    split; [exact S|]. split; [|split].
    + unfold put_payload. cbn [message]. rewrite (truthy_nonempty _ Hne).
      reflexivity.
    + apply strip_spec.
    + intros Hs He. rewrite S. unfold strip.
      rewrite (lstrip_id _ _ Hs), (rstrip_id _ _ He). reflexivity.
  - intros current_sha [-> | ->]; split; reflexivity.
  - intros github_put current_sha r H. unfold update_github_file.
    rewrite H. reflexivity.
Qed.

Lemma write_token_stripped_witness :
  sha (put_payload checked_at bolt_jan2 (Some "3f2a9c")) = Some "3f2a9c"
  /\ sha (put_payload checked_at bolt_jan2 (Some quoted_etag)) = Some "3f2a9c".
Proof.
  split.
  - apply (proj1 (write_token_stripped checked_at bolt_jan2) "3f2a9c");
      [discriminate | reflexivity | reflexivity].
  - apply (proj1 (write_token_stripped checked_at bolt_jan2) quoted_etag).
    discriminate.
Defined.

(** C4 as stated fails: the entity tag read from the store comes between
    double quotes, and the request carries it without them. *)
Lemma write_token_not_verbatim :
  sha (put_payload checked_at bolt_jan2 (Some quoted_etag)) = Some "3f2a9c"
  /\ sha (put_payload checked_at bolt_jan2 (Some quoted_etag))
     <> Some quoted_etag.
Proof. split; [reflexivity|]. vm_compute. discriminate. Qed.

(** C3, as the code has it. The read returns (absent, absent) exactly when
    the request did not come back with status 200: a reply of any other
    status, not-found or not, is logged as a missing file, and a transport
    failure is logged as an error; both return (absent, absent). A reply
    of status 200 returns the lines below the heading and the entity
    tag. *)
Theorem read_absent_unless_200 (now : string) (github_get : http) :
  (fst (get_exisiting_entries now github_get) = (None, None)
   <-> forall r, github_get = Reply r -> status_code r <> 200)
  /\ (forall r,
         github_get = Reply r ->
         status_code r <> 200 ->
         get_exisiting_entries now github_get
         = ((None, None), [(INFO, "8-Ks.md doesn't exist")]))
  /\ (forall r,
         github_get = Reply r ->
         status_code r = 200 ->
         get_exisiting_entries now github_get
         = ((Some (skipn (count_char LF (HEADING now))
                     (splitlines (remove_char CR (text r)))),
             ETag r), []))
  /\ (forall e,
         github_get = Timeout e \/ github_get = RequestException e ->
         get_exisiting_entries now github_get
         = ((None, None),
            [(ERROR, ("An error occurred during the request: " ++ e)%string)])).
Proof.
  split; [|split; [|split]].
  - destruct github_get as [r|e|e]; simpl.
    + destruct (Nat.eqb_spec (status_code r) 200) as [E|E]; simpl.
      * split; [discriminate|]. intros H. exfalso. exact (H r eq_refl E).
      * split; [|reflexivity]. intros _ r' [= <-]. exact E.
    + split; [discriminate|reflexivity].
    + split; [discriminate|reflexivity].
  - intros r -> H. simpl.
    destruct (Nat.eqb_spec (status_code r) 200); [contradiction|reflexivity].
  - intros r -> H. simpl. rewrite H. reflexivity.
  - intros e [-> | ->]; reflexivity.
Qed.

(** C3 as stated fails: a server error is answered exactly as a missing
    file is, value and log line alike. *)
Lemma read_server_error_as_missing :
  get_exisiting_entries checked_at (Reply server_error)
  = ((None, None), [(INFO, "8-Ks.md doesn't exist")])
  /\ get_exisiting_entries checked_at (Reply server_error)
     = get_exisiting_entries checked_at (Reply not_found).
Proof. split; reflexivity. Qed.

(** ** Lines: facts *)

Lemma line_boundary_next (c x : ascii) (t rest : string) :
  closes_boundary x = false ->
  line_boundary (String c t) = 0 ->
  line_boundary (String c (t ++ String x rest)) = 0.
Proof.
  unfold closes_boundary, line_boundary. intros Hx.
  apply orb_false_elim in Hx as [Hx H169].
  apply orb_false_elim in Hx as [Hx H168].
  apply orb_false_elim in Hx as [H133 H128].
  destruct (Ascii.eqb c CR).
  { destruct t as [|c2 t]; [discriminate|]. destruct (Ascii.eqb c2 LF); discriminate. }
  destruct (_ || _); [discriminate|].
  destruct (Ascii.eqb c "194").
  { destruct t as [|c2 t]; cbn [append]; [rewrite H133; reflexivity|]. auto. }
  destruct (Ascii.eqb c "226"); [|reflexivity].
  destruct t as [|c2 [|c3 t]]; cbn [append].
  - rewrite H128. destruct rest; reflexivity.
  - rewrite H168, H169. intros _. rewrite andb_false_r. reflexivity.
  - auto.
Qed.

Lemma plain_app (a b : string) (x : ascii) :
  closes_boundary x = false ->
  plain a = true -> plain (String x b) = true ->
  plain (a ++ String x b) = true.
Proof.
  intros Hx. induction a as [|c t IH]; intros Ha Hb; [exact Hb|].
  cbn [plain append] in *. apply andb_prop in Ha as [Hc Ht].
  apply Nat.eqb_eq in Hc. rewrite (line_boundary_next _ _ _ _ Hx Hc).
  rewrite (IH Ht Hb). reflexivity.
Qed.

Lemma break_lines_line (l rest : string) :
  plain l = true ->
  break_lines 0 (l ++ String LF rest) = l :: break_lines 0 rest.
Proof.
  induction l as [|c t IH]; intros H.
  - reflexivity.
  - cbn [plain] in H. apply andb_prop in H as [Hc Ht].
    apply Nat.eqb_eq in Hc.
    cbn [append break_lines].
    rewrite (line_boundary_next c LF t rest eq_refl Hc), (IH Ht). reflexivity.
Qed.

Lemma break_lines_end (l : string) :
  plain l = true -> break_lines 0 l = [l].
Proof.
  induction l as [|c t IH]; intros H; [reflexivity|].
  cbn [plain] in H. apply andb_prop in H as [Hc Ht].
  apply Nat.eqb_eq in Hc. cbn [break_lines]. rewrite Hc, (IH Ht). reflexivity.
Qed.

Lemma break_lines_join (l : string) (ls : list string) :
  forallb plain (l :: ls) = true ->
  break_lines 0 (join NL (l :: ls)) = l :: ls.
Proof.
  revert l. induction ls as [|l2 ls IH]; intros l H.
  - simpl in H. rewrite andb_true_r in H. apply break_lines_end. exact H.
  - cbn [forallb] in H. apply andb_prop in H as [Hl H].
    change (join NL (l :: l2 :: ls))
      with (l ++ String LF (join NL (l2 :: ls)))%string.
    rewrite (break_lines_line _ _ Hl), (IH l2 H). reflexivity.
Qed.

Lemma drop_last_empty_nonempty (ls : list string) :
  forallb (fun l => negb (String.eqb l EmptyString)) ls = true ->
  drop_last_empty ls = ls.
Proof.
  induction ls as [|l ls IH]; [reflexivity|]. cbn [forallb]. intros H.
  apply andb_prop in H as [Hl H]. cbn [drop_last_empty].
  destruct ls as [|l2 ls].
  - destruct (String.eqb l EmptyString); [discriminate|reflexivity].
  - rewrite (IH H). reflexivity.
Qed.

Lemma drop_last_empty_app (hs ls : list string) :
  ls <> [] -> drop_last_empty (hs ++ ls) = hs ++ drop_last_empty ls.
Proof.
  intros Hne. induction hs as [|h hs IH]; [reflexivity|].
  cbn [app drop_last_empty]. rewrite IH.
  destruct (hs ++ ls) eqn:E; [|reflexivity].
  apply app_eq_nil in E as [_ E]. contradiction.
Qed.

Lemma break_lines_nonempty (skip : nat) (s : string) : break_lines skip s <> [].
Proof.
  revert skip. induction s as [|c s IH]; intros skip; [discriminate|].
  cbn [break_lines]. destruct skip; [|apply IH].
  destruct (line_boundary (String c s)); [|discriminate].
  destruct (break_lines 0 s); discriminate.
Qed.

Lemma splitlines_join (ls : list string) :
  forallb plain ls = true ->
  forallb (fun l => negb (String.eqb l EmptyString)) ls = true ->
  drop_last_empty (break_lines 0 (join NL ls)) = ls.
Proof.
  intros Hp Hn. destruct ls as [|l ls]; [reflexivity|].
  rewrite (break_lines_join _ _ Hp). apply drop_last_empty_nonempty. exact Hn.
Qed.

Lemma remove_char_app (c : ascii) (a b : string) :
  remove_char c (a ++ b) = (remove_char c a ++ remove_char c b)%string.
Proof.
  induction a as [|x a IH]; [reflexivity|]. cbn [append remove_char].
  destruct (Ascii.eqb x c); cbn [append]; rewrite IH; reflexivity.
Qed.

Lemma plain_no_cr (s : string) : plain s = true -> remove_char CR s = s.
Proof.
  induction s as [|c t IH]; [reflexivity|]. cbn [plain remove_char]. intros H.
  apply andb_prop in H as [Hc Ht]. apply Nat.eqb_eq in Hc.
  rewrite (IH Ht). unfold line_boundary in Hc.
  destruct (Ascii.eqb c CR); [|reflexivity].
  destruct t as [|c2 t]; [discriminate|]. destruct (Ascii.eqb c2 LF); discriminate.
Qed.

Lemma plain_no_lf (s : string) : plain s = true -> count_char LF s = 0.
Proof.
  induction s as [|c t IH]; [reflexivity|]. cbn [plain count_char]. intros H.
  apply andb_prop in H as [Hc Ht]. apply Nat.eqb_eq in Hc.
  rewrite (IH Ht). unfold line_boundary in Hc.
  destruct (Ascii.eqb c CR).
  { destruct t as [|c2 t]; [discriminate|]. destruct (Ascii.eqb c2 LF); discriminate. }
  destruct (Ascii.eqb c LF); [discriminate|reflexivity].
Qed.

Lemma count_char_app (c : ascii) (a b : string) :
  count_char c (a ++ b) = count_char c a + count_char c b.
Proof.
  induction a as [|x a IH]; [reflexivity|]. cbn [append count_char].
  rewrite IH. lia.
Qed.

Lemma full_content_shape (now body : string) :
  full_content now body
  = ("# List of Form 8-Ks with item 1.05"
     ++ String LF
          (("Last checked " ++ now)
           ++ String LF
                (EmptyString
                 ++ String LF
                      ("|Company|Timestamp|Link|"
                       ++ String LF ("|---|---|---|" ++ String LF body)))))%string.
Proof.
  unfold full_content, HEADING, ITEM, TESTING, NL.
  cbn [append]. rewrite !append_assoc. reflexivity.
Qed.

Lemma plain_last_checked (now : string) :
  plain now = true -> plain ("Last checked " ++ now) = true.
Proof. intros H. cbn. exact H. Qed.

Lemma break_lines_full_content (now body : string) :
  plain now = true ->
  break_lines 0 (full_content now body) = heading_lines now ++ break_lines 0 body.
Proof.
  intros H. rewrite full_content_shape.
  rewrite (break_lines_line _ _ (eq_refl : plain "# List of Form 8-Ks with item 1.05" = true)).
  rewrite (break_lines_line _ _ (plain_last_checked _ H)).
  rewrite (break_lines_line EmptyString _ eq_refl).
  rewrite (break_lines_line _ _ (eq_refl : plain "|Company|Timestamp|Link|" = true)).
  rewrite (break_lines_line _ _ (eq_refl : plain "|---|---|---|" = true)).
  reflexivity.
Qed.

Lemma heading_count (now : string) :
  plain now = true -> count_char LF (HEADING now) = 5.
Proof.
  intros H. unfold HEADING, ITEM, TESTING, NL.
  rewrite !count_char_app, (plain_no_lf _ H). reflexivity.
Qed.

Lemma remove_cr_join (ls : list string) :
  forallb plain ls = true -> remove_char CR (join NL ls) = join NL ls.
Proof.
  induction ls as [|l ls IH]; [reflexivity|]. cbn [forallb]. intros H.
  apply andb_prop in H as [Hl H]. destruct ls as [|l2 ls].
  - apply plain_no_cr. exact Hl.
  - change (join NL (l :: l2 :: ls))
      with (l ++ String LF (join NL (l2 :: ls)))%string.
    rewrite remove_char_app, (plain_no_cr _ Hl).
    cbn [remove_char]. change (Ascii.eqb LF CR) with false. cbn iota.
    rewrite (IH H). reflexivity.
Qed.

Lemma remove_cr_full_content (now body : string) :
  plain now = true ->
  remove_char CR body = body ->
  remove_char CR (full_content now body) = full_content now body.
Proof.
  intros H Hb. unfold full_content, HEADING, ITEM, TESTING, NL.
  rewrite !remove_char_app, (plain_no_cr _ H), Hb. reflexivity.
Qed.

(** Lines that are plain and not empty come back from the store as they
    were written, whatever the two runs' heading dates. *)
Lemma stored_lines_read_back (written_at read_at : string)
  (etag : option string) (entries : list string) :
  plain written_at = true ->
  plain read_at = true ->
  forallb plain entries = true ->
  forallb (fun l => negb (String.eqb l EmptyString)) entries = true ->
  get_exisiting_entries read_at (stored written_at etag entries)
  = ((Some entries, etag), []).
Proof.
  intros Hw Hr Hp Hn. unfold stored, get_exisiting_entries.
  cbn [status_code ETag text Nat.eqb].
  rewrite (heading_count _ Hr).
  rewrite (remove_cr_full_content _ _ Hw (remove_cr_join _ Hp)).
  unfold splitlines. rewrite (break_lines_full_content _ _ Hw).
  rewrite (drop_last_empty_app _ _ (break_lines_nonempty 0 _)).
  rewrite (splitlines_join _ Hp Hn). reflexivity.
Qed.

Lemma plain_pipe (b : string) : plain b = true -> plain (String PIPE b) = true.
Proof. intros H. cbn. exact H. Qed.

Lemma plain_filing_row (f : filing) :
  plain_filing f = true -> plain (filing_row f) = true.
Proof.
  unfold plain_filing, filing_row. intros H.
  apply andb_prop in H as [H Hu]. apply andb_prop in H as [Hc Hd].
  cbn [append]. apply plain_pipe.
  apply (plain_app _ _ PIPE eq_refl Hc). apply plain_pipe.
  apply (plain_app _ _ PIPE eq_refl Hd). apply plain_pipe.
  apply (plain_app _ _ PIPE eq_refl Hu). reflexivity.
Qed.

Lemma plain_filing_rows (filings : list filing) :
  forallb plain_filing filings = true ->
  forallb plain (map filing_row filings) = true
  /\ forallb (fun l => negb (String.eqb l EmptyString)) (map filing_row filings)
     = true.
Proof.
  induction filings as [|f fs IH]; [split; reflexivity|]. cbn [forallb map].
  intros H. apply andb_prop in H as [Hf H]. destruct (IH H) as [IP IN].
  rewrite (plain_filing_row _ Hf), IP, IN. split; reflexivity.
Qed.

Lemma split_field (a b : string) :
  free_of PIPE a = true -> split PIPE (a ++ String PIPE b) = a :: split PIPE b.
Proof.
  induction a as [|c t IH]; [reflexivity|]. cbn [free_of append split].
  intros H. apply andb_prop in H as [Hc Ht].
  destruct (Ascii.eqb c PIPE); [discriminate|]. rewrite (IH Ht). reflexivity.
Qed.

(** The timestamp column of a row is the filing's date, when the company
    name and the date hold no [|]. *)
Lemma filing_row_timestamp (f : filing) :
  free_of PIPE (company f) = true ->
  free_of PIPE (date_time f) = true ->
  entry_timestamp (filing_row f) = Ok (date_time f).
Proof.
  intros Hc Hd. unfold entry_timestamp, field, filing_row.
  change ("|" ++ company f ++ "|" ++ date_time f ++ "|" ++ full_url f ++ "|")%string
    with (EmptyString ++ String PIPE (company f ++ String PIPE
            (date_time f ++ String PIPE (full_url f ++ "|"))))%string.
  rewrite (split_field EmptyString _ eq_refl), (split_field _ _ Hc),
    (split_field _ _ Hd).
  reflexivity.
Qed.

Lemma split_empty : split PIPE EmptyString = [EmptyString].
Proof. reflexivity. Qed.

(** The columns of a rendered row are the fields of the filing, when no
    field holds a [|]. *)
Lemma row_filing_filing_row (f : filing) :
  pipe_free_filing f = true -> row_filing (filing_row f) = Ok f.
Proof.
  unfold pipe_free_filing. intros H.
  apply andb_prop in H as [H Hu]. apply andb_prop in H as [Hc Hd].
  assert (S : split PIPE (filing_row f)
              = [EmptyString; company f; date_time f; full_url f; EmptyString]).
  { unfold filing_row.
    change ("|" ++ company f ++ "|" ++ date_time f ++ "|" ++ full_url f ++ "|")%string
      with (EmptyString ++ String PIPE (company f ++ String PIPE
              (date_time f ++ String PIPE
                 (full_url f ++ String PIPE EmptyString))))%string.
    rewrite (split_field EmptyString _ eq_refl), (split_field _ _ Hc),
      (split_field _ _ Hd), (split_field _ _ Hu), split_empty.
    reflexivity. }
  unfold row_filing, field. rewrite S. cbn [nth_error Py.bind].
  destruct f. reflexivity.
Qed.

Lemma row_filing_filing_rows (filings : list filing) :
  forallb pipe_free_filing filings = true ->
  map row_filing (map filing_row filings) = map (@Ok filing) filings.
Proof.
  induction filings as [|f fs IH]; [reflexivity|]. cbn [forallb map].
  intros H. apply andb_prop in H as [Hf H].
  rewrite (row_filing_filing_row _ Hf), (IH H). reflexivity.
Qed.

(** C7, as the code has it. Rows rendered as [|name|timestamp|link|],
    joined into the document under the heading and read back (carriage
    returns deleted, split into lines, the heading's lines dropped), are
    recovered as they were, character for character, and with them the
    entity tag, when no field holds a line boundary; the dates of the two
    headings need not agree. When no field holds a [|] either, the
    columns of each recovered row are the name, the timestamp and the
    link of its filing: the list of filings is recovered field for
    field. *)
Theorem stored_rows_read_back (written_at read_at : string)
  (etag : option string) (filings : list filing) :
  plain written_at = true ->
  plain read_at = true ->
  forallb plain_filing filings = true ->
  get_exisiting_entries read_at (stored written_at etag (map filing_row filings))
  = ((Some (map filing_row filings), etag), [])
  /\ (forallb pipe_free_filing filings = true ->
      exists rows,
        fst (fst (get_exisiting_entries read_at
                    (stored written_at etag (map filing_row filings))))
        = Some rows
        /\ map row_filing rows = map (@Ok filing) filings).
Proof.
  intros Hw Hr Hf. destruct (plain_filing_rows _ Hf) as [Hp Hn].
  pose proof (stored_lines_read_back written_at read_at etag
                (map filing_row filings) Hw Hr Hp Hn) as R.
  split; [exact R|]. intros Hpipe.
  exists (map filing_row filings). rewrite R. split; [reflexivity|].
  apply row_filing_filing_rows. exact Hpipe.
Qed.

Lemma stored_rows_read_back_witness :
  get_exisiting_entries checked_at
    (stored "2024-01-03 23:00:00" (Some quoted_etag) (map filing_row [acme; bolt]))
  = ((Some (map filing_row [acme; bolt]), Some quoted_etag), [])
  /\ exists rows,
       fst (fst (get_exisiting_entries checked_at
                   (stored "2024-01-03 23:00:00" (Some quoted_etag)
                      (map filing_row [acme; bolt]))))
       = Some rows
       /\ map row_filing rows = map (@Ok filing) [acme; bolt].
Proof.
  destruct (stored_rows_read_back "2024-01-03 23:00:00" checked_at
              (Some quoted_etag) [acme; bolt] eq_refl eq_refl eq_refl)
    as [R F].
  split; [exact R|exact (F eq_refl)].
Defined.

(** C7 as stated fails: reading deletes every carriage return, so a row
    whose company name holds one comes back changed; and two different
    filings with a [|] in a field render to one and the same row, whose
    timestamp column is then not the timestamp of the first. *)
Lemma carriage_return_not_read_back :
  get_exisiting_entries checked_at (stored checked_at None [filing_row acme_cr])
  = ((Some ["|AcmeCorp|2024-01-03 09:00:00|[link](https://www.sec.gov/a3.htm)|"],
      None), [])
  /\ get_exisiting_entries checked_at (stored checked_at None [filing_row acme_cr])
     <> ((Some [filing_row acme_cr], None), [])
  /\ plain_filing pipe_in_name = true
  /\ plain_filing pipe_in_date = true
  /\ filing_row pipe_in_name = filing_row pipe_in_date
  /\ pipe_in_name <> pipe_in_date
  /\ entry_timestamp (filing_row pipe_in_name) = Ok "Barnes".
Proof.
  split; [reflexivity|]. split; [vm_compute; discriminate|].
  repeat split. discriminate.
Qed.

(** ** The listing: facts and claims *)

Section PaginatorFacts.

Variable soup : Type.
Variable tag : Type.
Variable BeautifulSoup : string -> soup.
Variable find_all_tr : soup -> list tag.
Variable get_text : tag -> string.
Variable find_input : soup -> string -> bool.
Variable get_filing_info : tag * tag -> result string.
Variable session_get : nat -> string -> http.

Local Abbreviation loop :=
  (get_8ks_loop soup tag BeautifulSoup find_all_tr get_text find_input
     get_filing_info session_get).
Local Abbreviation fetch :=
  (get_8ks soup tag BeautifulSoup find_all_tr get_text find_input
     get_filing_info session_get).
Local Abbreviation rows_of markup :=
  (tr_elements_with_item tag get_text (find_all_tr (BeautifulSoup markup))).
Local Abbreviation next_of markup :=
  (has_next soup find_input (BeautifulSoup markup)).

Lemma add_filings_ok (elements : list (tag * tag)) (acc : string) :
  (forall pair, In pair elements -> exists row, get_filing_info pair = Ok row) ->
  exists out, add_filings tag get_filing_info acc elements = Ok out.
Proof.
  revert acc. induction elements as [|e rest IH]; intros acc H.
  - exists acc. reflexivity.
  - destruct (H e (or_introl eq_refl)) as (row & E).
    cbn [add_filings]. rewrite E. cbn [Py.bind].
    apply IH. intros pair Hin. apply H. right. exact Hin.
Qed.

(** An iteration whose request does not come back asks for the same URL
    again. *)
Lemma loop_no_reply (fuel page index : nat) (acc : string) :
  no_reply (session_get (page + 1) (get_sec_url index)) = true ->
  result_of (loop (S fuel) page index acc)
  = result_of (loop fuel (page + 1) index acc)
  /\ requests (loop (S fuel) page index acc)
     = get_sec_url index :: requests (loop fuel (page + 1) index acc).
Proof.
  intros H. cbn [get_8ks_loop].
  destruct (session_get (page + 1) (get_sec_url index)); [discriminate| |];
    split; reflexivity.
Qed.

Lemma loop_no_reply_times (k fuel page index : nat) (acc : string) :
  (forall i, i < k ->
     no_reply (session_get (page + 1 + i) (get_sec_url index)) = true) ->
  result_of (loop (k + fuel) page index acc)
  = result_of (loop fuel (page + k) index acc)
  /\ requests (loop (k + fuel) page index acc)
     = repeat (get_sec_url index) k
       ++ requests (loop fuel (page + k) index acc).
Proof.
  revert page. induction k as [|k IH]; intros page H.
  - rewrite Nat.add_0_r. split; reflexivity.
  - assert (H0 : no_reply (session_get (page + 1) (get_sec_url index)) = true).
    { specialize (H 0 (Nat.lt_0_succ k)). rewrite Nat.add_0_r in H. exact H. }
    destruct (loop_no_reply (k + fuel) page index acc H0) as [R Q].
    destruct (IH (page + 1)) as [R' Q'].
    { intros i Hi. replace (page + 1 + 1 + i) with (page + 1 + S i) by lia.
      apply H. lia. }
    replace (page + S k) with (page + 1 + k) by lia.
    cbn [Nat.add repeat app]. rewrite R, Q, R', Q'. split; reflexivity.
Qed.

Lemma loop_pages (pages : list string) :
  (forall n k markup,
      nth_error pages k = Some markup ->
      exists r,
        session_get n (page_url k) = Reply r
        /\ status_code r = 200 /\ text r = markup) ->
  (forall k markup,
      nth_error pages k = Some markup ->
      next_of markup = Nat.ltb (S k) (List.length pages)) ->
  (forall k markup pair,
      nth_error pages k = Some markup ->
      In pair (rows_of markup) ->
      exists row, get_filing_info pair = Ok row) ->
  forall m k page acc fuel,
    k + S m = List.length pages ->
    S m <= fuel ->
    requests (loop fuel page (k * FILINGS_PER_PAGE) acc)
    = map page_url (seq k (S m))
    /\ exists filings,
         result_of (loop fuel page (k * FILINGS_PER_PAGE) acc)
         = Returned (Some filings).
Proof.
  intros Hserve Hnext Hrows.
  induction m as [|m IH]; intros k page acc fuel Hk Hfuel;
    (destruct fuel as [|fuel]; [lia|]);
    (destruct (nth_error pages k) as [markup|] eqn:Hp;
     [|apply nth_error_None in Hp; lia]);
    destruct (Hserve (page + 1) k markup Hp) as (r & Hs & H200 & Ht);
    unfold page_url in Hs;
    destruct (add_filings_ok (rows_of markup) acc
                (fun pair => Hrows k markup pair Hp))
      as (out & Hout);
    cbn [get_8ks_loop]; rewrite Hs, H200; cbn [Nat.eqb negb];
    rewrite Ht, Hout, (Hnext k markup Hp).
  - replace (Nat.ltb (S k) (List.length pages)) with false
      by (symmetry; apply Nat.ltb_ge; lia).
    cbn [negb]. split; [reflexivity|]. exists out. reflexivity.
  - replace (Nat.ltb (S k) (List.length pages)) with true
      by (symmetry; apply Nat.ltb_lt; lia).
    cbn [negb]. rewrite <- Nat.mul_succ_l.
    destruct (IH (S k) (page + 1) out fuel) as (Q & filings & R); [lia|lia|].
    cbn [after_request requests result_of]. rewrite Q. split.
    + reflexivity.
    + exists filings. exact R.
Qed.

(** C8. A listing of N pages, each but the last carrying the
    [Next 100] control, is fetched in exactly N requests, at the offsets
    0, 100, ..., (N-1)*100 in this order, and the fetch then returns the
    filings it collected. *)
Theorem pagination_requests_each_page (pages : list string) (fuel : nat) :
  pages <> [] ->
  (forall n k markup,
      nth_error pages k = Some markup ->
      exists r,
        session_get n (page_url k) = Reply r
        /\ status_code r = 200 /\ text r = markup) ->
  (forall k markup,
      nth_error pages k = Some markup ->
      next_of markup = Nat.ltb (S k) (List.length pages)) ->
  (forall k markup pair,
      nth_error pages k = Some markup ->
      In pair (rows_of markup) ->
      exists row, get_filing_info pair = Ok row) ->
  List.length pages <= fuel ->
  requests (fetch fuel) = map page_url (seq 0 (List.length pages))
  /\ List.length (requests (fetch fuel)) = List.length pages
  /\ exists filings, result_of (fetch fuel) = Returned (Some filings).
Proof.
  intros Hne Hserve Hnext Hrows Hfuel.
  destruct pages as [|p ps] eqn:Ep; [contradiction|]. rewrite <- Ep in *.
  assert (Hlen : 0 + S (List.length ps) = List.length pages)
    by (rewrite Ep; reflexivity).
  destruct (loop_pages pages Hserve Hnext Hrows (List.length ps) 0 0
              EmptyString fuel Hlen) as (Q & filings & R).
  { rewrite Ep in Hfuel. exact Hfuel. }
  unfold get_8ks. cbn [Nat.mul] in Q, R. rewrite Q.
  replace (List.length pages) with (S (List.length ps))
    by (rewrite Ep; reflexivity).
  split; [reflexivity|]. split.
  - rewrite length_map, length_seq. reflexivity.
  - exists filings. exact R.
Qed.

(** The lines an iteration logs when its request does not come back. *)
Lemma loop_no_reply_logged (fuel page index : nat) (acc : string) :
  (forall e,
      session_get (page + 1) (get_sec_url index) = Timeout e ->
      logged (loop (S fuel) page index acc)
      = [(INFO,
          ("Checking 'latest filings' page " ++ str_of_nat (page + 1) ++ ".")%string);
         (WARNING,
          ("Request to " ++ get_sec_url index
           ++ " timed out after 10 seconds.")%string)]
        ++ logged (loop fuel (page + 1) index acc))
  /\ (forall e,
         session_get (page + 1) (get_sec_url index) = RequestException e ->
         logged (loop (S fuel) page index acc)
         = [(INFO,
             ("Checking 'latest filings' page " ++ str_of_nat (page + 1)
              ++ ".")%string);
            (WARNING,
             ("Request to " ++ get_sec_url index
              ++ " encountered an exception: " ++ e)%string)]
           ++ logged (loop fuel (page + 1) index acc)).
Proof.
  split; intros e H; cbn [get_8ks_loop]; rewrite H; reflexivity.
Qed.

Lemma loop_no_reply_levels (k fuel page index : nat) (acc : string) :
  (forall i, i < k ->
     no_reply (session_get (page + 1 + i) (get_sec_url index)) = true) ->
  exists lines,
    logged (loop (k + fuel) page index acc)
    = lines ++ logged (loop fuel (page + k) index acc)
    /\ map fst lines = List.concat (repeat [INFO; WARNING] k).
Proof.
  revert page. induction k as [|k IH]; intros page H.
  - exists []. rewrite Nat.add_0_r. split; reflexivity.
  - assert (H0 : no_reply (session_get (page + 1) (get_sec_url index)) = true).
    { specialize (H 0 (Nat.lt_0_succ k)). rewrite Nat.add_0_r in H. exact H. }
    destruct (IH (page + 1)) as (lines & L & M).
    { intros i Hi. replace (page + 1 + 1 + i) with (page + 1 + S i) by lia.
      apply H. lia. }
    replace (page + S k) with (page + 1 + k) by lia.
    destruct (loop_no_reply_logged (k + fuel) page index acc) as [T X].
    cbn [Nat.add].
    destruct (session_get (page + 1) (get_sec_url index)) as [r|e|e] eqn:S;
      [discriminate| |].
    + eexists (_ :: _ :: lines). rewrite (T e eq_refl), L. split.
      * reflexivity.
      * cbn [map fst repeat List.concat app]. rewrite M. reflexivity.
    + eexists (_ :: _ :: lines). rewrite (X e eq_refl), L. split.
      * reflexivity.
      * cbn [map fst repeat List.concat app]. rewrite M. reflexivity.
Qed.

(** A fetch that returns [None] made a request that was answered with a
    status other than 200. *)
Lemma loop_none_inv (fuel page index : nat) (acc : string) :
  result_of (loop fuel page index acc) = Returned None ->
  exists n index' r,
    In (get_sec_url index') (requests (loop fuel page index acc))
    /\ session_get n (get_sec_url index') = Reply r
    /\ status_code r <> 200.
Proof.
  revert page index acc. induction fuel as [|fuel IH]; intros page index acc;
    [discriminate|].
  cbn [get_8ks_loop].
  destruct (session_get (page + 1) (get_sec_url index)) as [r|e|e] eqn:S.
  - destruct (Nat.eqb_spec (status_code r) 200) as [E|E]; cbn [negb].
    + destruct (add_filings tag get_filing_info acc _) as [out|err];
        [|discriminate].
      destruct (has_next soup find_input _); cbn [negb]; [|discriminate].
      cbn [after_request result_of requests]. intros H.
      destruct (IH _ _ _ H) as (n & i & r' & Hin & Hs & Hne).
      exists n, i, r'. split; [right; exact Hin|]. split; assumption.
    + intros _. exists (page + 1), index, r.
      split; [left; reflexivity|]. split; assumption.
  - cbn [after_request result_of requests]. intros H.
    destruct (IH _ _ _ H) as (n & i & r' & Hin & Hs & Hne).
    exists n, i, r'. split; [right; exact Hin|]. split; assumption.
  - cbn [after_request result_of requests]. intros H.
    destruct (IH _ _ _ H) as (n & i & r' & Hin & Hs & Hne).
    exists n, i, r'. split; [right; exact Hin|]. split; assumption.
Qed.

(** C2, as the code has it. A request that times out or fails in transit
    does not end the fetch: the loop logs a warning that names the URL and
    asks for the same URL again (the page counter of the log goes up, the
    offset does not), as many times as the failure repeats, and goes on
    from there; against a site that never answers it never returns. The
    fetch returns [None] when a reply has a status other than 200, logging
    an error, and only then: a fetch that returned [None] made a request
    that was answered with such a status. *)
Theorem transport_failure_retried :
  (forall k fuel page index acc,
      (forall i, i < k ->
         no_reply (session_get (page + 1 + i) (get_sec_url index)) = true) ->
      result_of (loop (k + fuel) page index acc)
      = result_of (loop fuel (page + k) index acc)
      /\ requests (loop (k + fuel) page index acc)
         = repeat (get_sec_url index) k
           ++ requests (loop fuel (page + k) index acc)
      /\ exists lines,
           logged (loop (k + fuel) page index acc)
           = lines ++ logged (loop fuel (page + k) index acc)
           /\ map fst lines = List.concat (repeat [INFO; WARNING] k))
  /\ (forall fuel page index acc e,
         (session_get (page + 1) (get_sec_url index) = Timeout e ->
          logged (loop (S fuel) page index acc)
          = [(INFO,
              ("Checking 'latest filings' page " ++ str_of_nat (page + 1)
               ++ ".")%string);
             (WARNING,
              ("Request to " ++ get_sec_url index
               ++ " timed out after 10 seconds.")%string)]
            ++ logged (loop fuel (page + 1) index acc))
         /\ (session_get (page + 1) (get_sec_url index) = RequestException e ->
             logged (loop (S fuel) page index acc)
             = [(INFO,
                 ("Checking 'latest filings' page " ++ str_of_nat (page + 1)
                  ++ ".")%string);
                (WARNING,
                 ("Request to " ++ get_sec_url index
                  ++ " encountered an exception: " ++ e)%string)]
               ++ logged (loop fuel (page + 1) index acc)))
  /\ ((forall n url, no_reply (session_get n url) = true) ->
      forall fuel,
        result_of (fetch fuel) = Pending
        /\ requests (fetch fuel) = repeat (get_sec_url 0) fuel)
  /\ (forall fuel page index acc r,
         session_get (page + 1) (get_sec_url index) = Reply r ->
         status_code r <> 200 ->
         result_of (loop (S fuel) page index acc) = Returned None
         /\ requests (loop (S fuel) page index acc) = [get_sec_url index]
         /\ logged (loop (S fuel) page index acc)
            = [(INFO,
                ("Checking 'latest filings' page " ++ str_of_nat (page + 1)
                 ++ ".")%string);
               (ERROR,
                ("Failed to load SEC data (code: "
                 ++ str_of_nat (status_code r) ++ ") for URL: "
                 ++ get_sec_url index)%string)])
  /\ (forall fuel,
         result_of (fetch fuel) = Returned None ->
         exists n index r,
           In (get_sec_url index) (requests (fetch fuel))
           /\ session_get n (get_sec_url index) = Reply r
           /\ status_code r <> 200).
Proof.
  split; [|split; [|split; [|split]]].
  - intros k fuel page index acc H.
    destruct (loop_no_reply_times k fuel page index acc H) as [R Q].
    split; [exact R|]. split; [exact Q|].
    exact (loop_no_reply_levels k fuel page index acc H).
  - intros fuel page index acc e.
    destruct (loop_no_reply_logged fuel page index acc) as [T X].
    split; [exact (T e)|exact (X e)].
  - intros H fuel.
    destruct (loop_no_reply_times fuel 0 0 0 EmptyString) as [R Q].
    { intros i _. apply H. }
    unfold get_8ks. rewrite Nat.add_0_r in R, Q. rewrite R, Q.
    cbn [get_8ks_loop stop result_of requests]. rewrite app_nil_r.
    split; reflexivity.
  - intros fuel page index acc r Hs Hne. cbn [get_8ks_loop]. rewrite Hs.
    destruct (Nat.eqb_spec (status_code r) 200) as [E|E]; [contradiction|].
    repeat split.
  - intros fuel. unfold get_8ks. apply loop_none_inv.
Qed.

End PaginatorFacts.

Lemma pagination_requests_each_page_witness :
  requests (PlainText.get_8ks two_pages 2) = [page_url 0; page_url 1]
  /\ List.length (requests (PlainText.get_8ks two_pages 2)) = 2
  /\ exists filings,
       result_of (PlainText.get_8ks two_pages 2) = Returned (Some filings).
Proof.
  apply (pagination_requests_each_page PlainText.soup PlainText.tag
           PlainText.BeautifulSoup PlainText.find_all_tr PlainText.get_text
           PlainText.find_input PlainText.get_filing_info two_pages
           [first_page; last_page] 2).
  - discriminate.
  - intros n [|[|k]] markup H.
    + injection H as <-. eexists. repeat split.
    + injection H as <-. eexists. repeat split.
    + destruct k; discriminate.
  - intros [|[|k]] markup H.
    + injection H as <-. reflexivity.
    + injection H as <-. reflexivity.
    + destruct k; discriminate.
  - intros k markup pair _ _. eexists. reflexivity.
  - simpl. lia.
Defined.

Lemma transport_failure_retried_witness :
  result_of (PlainText.get_8ks slow_start 2)
  = result_of (get_8ks_loop PlainText.soup PlainText.tag
                 PlainText.BeautifulSoup PlainText.find_all_tr
                 PlainText.get_text PlainText.find_input
                 PlainText.get_filing_info slow_start 1 1 0 EmptyString)
  /\ requests (PlainText.get_8ks slow_start 2)
     = repeat (get_sec_url 0) 1
       ++ requests (get_8ks_loop PlainText.soup PlainText.tag
                      PlainText.BeautifulSoup PlainText.find_all_tr
                      PlainText.get_text PlainText.find_input
                      PlainText.get_filing_info slow_start 1 1 0 EmptyString)
  /\ exists lines,
       logged (PlainText.get_8ks slow_start 2)
       = lines
         ++ logged (get_8ks_loop PlainText.soup PlainText.tag
                      PlainText.BeautifulSoup PlainText.find_all_tr
                      PlainText.get_text PlainText.find_input
                      PlainText.get_filing_info slow_start 1 1 0 EmptyString)
       /\ map fst lines = List.concat (repeat [INFO; WARNING] 1).
Proof.
  apply (proj1 (transport_failure_retried PlainText.soup PlainText.tag
                  PlainText.BeautifulSoup PlainText.find_all_tr
                  PlainText.get_text PlainText.find_input
                  PlainText.get_filing_info slow_start) 1 1 0 0 EmptyString).
  intros i Hi. replace i with 0 by lia. reflexivity.
Defined.

(** C2 as stated fails: the first request times out, the loop asks for the
    same URL a second time, and the fetch returns its filings with no
    failure. *)
Lemma timeout_retried_not_surfaced :
  result_of (PlainText.get_8ks slow_start 2) = Returned (Some EmptyString)
  /\ requests (PlainText.get_8ks slow_start 2) = [page_url 0; page_url 0].
Proof. split; reflexivity. Qed.

(** ** The merge: further facts *)

Lemma split_length (c : ascii) (s : string) :
  List.length (split c s) = S (count_char c s).
Proof.
  induction s as [|a s IH]; [reflexivity|]. cbn [split count_char].
  destruct (Ascii.eqb a c).
  - cbn [List.length]. rewrite IH. reflexivity.
  - destruct (split c s) as [|f fs]; [discriminate|].
    cbn [List.length] in *. rewrite IH. reflexivity.
Qed.

(** The timestamp column of an entry can be read exactly when the entry
    holds at least two [|]; otherwise the subscript raises [IndexError]. *)
Theorem entry_timestamp_needs_two_pipes (entry : string) :
  (2 <= count_char PIPE entry -> exists ts, entry_timestamp entry = Ok ts)
  /\ (count_char PIPE entry < 2 -> entry_timestamp entry = Raise IndexError).
Proof.
  unfold entry_timestamp, field.
  pose proof (split_length PIPE entry) as L.
  destruct (nth_error (split PIPE entry) 2) as [ts|] eqn:E.
  - split; [intros _; exists ts; reflexivity|].
    intros H. assert (2 < List.length (split PIPE entry))
      by (apply nth_error_Some; rewrite E; discriminate). lia.
  - split; [|reflexivity]. intros H.
    apply nth_error_None in E. lia.
Qed.

Lemma entry_timestamp_needs_two_pipes_witness :
  (exists ts, entry_timestamp bolt_jan2 = Ok ts)
  /\ entry_timestamp "Bolt Inc|2024-01-02 10:00:00" = Raise IndexError.
Proof.
  split.
  - apply (proj1 (entry_timestamp_needs_two_pipes bolt_jan2)).
    vm_compute. lia.
  - apply (proj2 (entry_timestamp_needs_two_pipes "Bolt Inc|2024-01-02 10:00:00")).
    vm_compute. lia.
Defined.

Lemma entry_timestamp_raise (entry : string) (e : exn) :
  entry_timestamp entry = Raise e -> e = IndexError.
Proof.
  unfold entry_timestamp, field.
  destruct (nth_error (split PIPE entry) 2); congruence.
Qed.

Lemma scan_new_raises_iff (cutoff : string) (new_entries : list string) :
  scan_new cutoff new_entries = Raise IndexError
  <-> exists kept e tail,
        new_entries = kept ++ e :: tail
        /\ forallb (newer_than cutoff) kept = true
        /\ has_timestamp e = false.
Proof.
  induction new_entries as [|x rest IH].
  - split; [discriminate|]. intros (kept & e & tail & E & _).
    destruct kept; discriminate.
  - cbn [scan_new]. unfold has_timestamp, newer_than in *.
    destruct (entry_timestamp x) as [ts|err] eqn:Ex; cbn [Py.bind].
    + destruct (str_gt ts cutoff) eqn:G.
      * split.
        -- intros H. destruct (scan_new cutoff rest) as [k|err] eqn:S;
             [discriminate|]. cbn [Py.bind] in H.
           destruct (proj1 IH) as (kept & e & tail & E & F & T).
           { injection H as ->. reflexivity. }
           exists (x :: kept), e, tail. subst rest. repeat split.
           ++ cbn [forallb]. rewrite Ex, G, F. reflexivity.
           ++ exact T.
        -- intros (kept & e & tail & E & F & T).
           destruct kept as [|k kept].
           ++ injection E as <- _. rewrite Ex in T. discriminate.
           ++ injection E as <- ->. cbn [forallb] in F.
              apply andb_prop in F as [_ F].
              rewrite (proj2 IH); [reflexivity|].
              exists kept, e, tail. repeat split; assumption.
      * split; [discriminate|]. intros (kept & e & tail & E & F & T).
        destruct kept as [|k kept].
        -- injection E as <- _. rewrite Ex in T. discriminate.
        -- injection E as <- _. cbn [forallb] in F. rewrite Ex, G in F.
           discriminate.
    + split.
      * intros _. exists [], x, rest. rewrite Ex. repeat split.
      * intros _. rewrite (entry_timestamp_raise _ _ Ex). reflexivity.
Qed.

Lemma scan_new_raise (cutoff : string) (new_entries : list string) (e : exn) :
  scan_new cutoff new_entries = Raise e -> e = IndexError.
Proof.
  induction new_entries as [|x rest IH]; [discriminate|]. cbn [scan_new].
  destruct (entry_timestamp x) as [ts|err] eqn:Ex; cbn [Py.bind].
  - destruct (str_gt ts cutoff); [|discriminate].
    destruct (scan_new cutoff rest); [discriminate|]. cbn [Py.bind].
    intros [= <-]. apply IH. reflexivity.
  - intros [= <-]. exact (entry_timestamp_raise _ _ Ex).
Qed.

(** The merge fails only with [IndexError], and exactly in two cases: the
    first old entry has no timestamp column (whatever the new entries are,
    none included), or an entry of the new list has none and every entry
    before it is newer than the cutoff. *)
Theorem merge_fails_exactly_on_missing_timestamp :
  (forall (first : string) (old_rest new_entries : list string),
      has_timestamp first = false ->
      final_list new_entries (Some (first :: old_rest)) = Raise IndexError)
  /\ (forall (first cutoff : string) (old_rest new_entries : list string),
         entry_timestamp first = Ok cutoff ->
         (final_list new_entries (Some (first :: old_rest)) = Raise IndexError
          <-> exists kept e tail,
                new_entries = kept ++ e :: tail
                /\ forallb (newer_than cutoff) kept = true
                /\ has_timestamp e = false))
  /\ (forall (new_entries : list string) (old_entries : option (list string))
             (e : exn),
         final_list new_entries old_entries = Raise e -> e = IndexError).
Proof.
  split; [|split].
  - intros first old_rest new_entries H. unfold has_timestamp in H.
    unfold final_list. destruct (entry_timestamp first) eqn:E; [discriminate|].
    rewrite (entry_timestamp_raise _ _ E). reflexivity.
  - intros first cutoff old_rest new_entries Hc. unfold final_list.
    rewrite Hc. cbn [Py.bind]. rewrite <- scan_new_raises_iff.
    destruct (scan_new cutoff new_entries) as [k|err] eqn:S; cbn [Py.bind].
    + split; discriminate.
    + rewrite (scan_new_raise _ _ _ S). split; reflexivity.
  - intros new_entries [[|first old_rest]|] e; try discriminate.
    unfold final_list.
    destruct (entry_timestamp first) as [c|err] eqn:E; cbn [Py.bind].
    + destruct (scan_new c new_entries) as [k|err] eqn:S; cbn [Py.bind];
        [discriminate|]. intros [= <-]. exact (scan_new_raise _ _ _ S).
    + intros [= <-]. exact (entry_timestamp_raise _ _ E).
Qed.

Lemma merge_fails_exactly_on_missing_timestamp_witness :
  final_list [] (Some ["no columns here"]) = Raise IndexError
  /\ final_list [acme_jan3; "torn row"; cask_jan1] (Some [bolt_jan2])
     = Raise IndexError.
Proof.
  split.
  - apply (proj1 merge_fails_exactly_on_missing_timestamp). reflexivity.
  - apply (proj1 (proj2 merge_fails_exactly_on_missing_timestamp)
             bolt_jan2 "2024-01-02 10:00:00" [] _ eq_refl).
    exists [acme_jan3], "torn row", [cask_jan1]. repeat split.
Defined.

Lemma scan_new_ok_inv (cutoff : string) (new_entries kept : list string) :
  scan_new cutoff new_entries = Ok kept ->
  exists rest,
    new_entries = kept ++ rest /\ forallb (newer_than cutoff) kept = true.
Proof.
  revert kept. induction new_entries as [|x rest IH]; intros kept.
  - intros [= <-]. exists []. split; reflexivity.
  - cbn [scan_new].
    destruct (entry_timestamp x) as [ts|err] eqn:Ex; cbn [Py.bind];
      [|discriminate].
    destruct (str_gt ts cutoff) eqn:G.
    + destruct (scan_new cutoff rest) as [k|err] eqn:S; cbn [Py.bind];
        [|discriminate].
      intros [= <-]. destruct (IH k eq_refl) as (r & E & F).
      exists r. split; [rewrite E at 1; reflexivity|].
      cbn [forallb]. unfold newer_than at 1. rewrite Ex, G, F. reflexivity.
    + intros [= <-]. exists (x :: rest). split; reflexivity.
Qed.

Lemma final_list_ok_inv (first : string) (old_rest new_entries merged : list string) :
  final_list new_entries (Some (first :: old_rest)) = Ok merged ->
  exists cutoff kept rest,
    entry_timestamp first = Ok cutoff
    /\ new_entries = kept ++ rest
    /\ forallb (newer_than cutoff) kept = true
    /\ merged = kept ++ first :: old_rest.
Proof.
  unfold final_list.
  destruct (entry_timestamp first) as [c|err]; cbn [Py.bind]; [|discriminate].
  destruct (scan_new c new_entries) as [k|err] eqn:S; cbn [Py.bind];
    [|discriminate].
  intros [= <-]. destruct (scan_new_ok_inv _ _ _ S) as (rest & E & F).
  exists c, k, rest. repeat split; assumption.
Qed.

(** Whatever the merge returns holds only entries of the two lists it was
    given, each as it was, and no more of them than the two lists have
    together. *)
Theorem merge_invents_nothing
  (new_entries merged : list string) (old_entries : option (list string)) :
  final_list new_entries old_entries = Ok merged ->
  (forall e, In e merged ->
     In e new_entries \/ exists old, old_entries = Some old /\ In e old)
  /\ List.length merged
     <= List.length new_entries
        + match old_entries with
          | Some old => List.length old
          | None => 0
          end.
Proof.
  destruct old_entries as [[|first old_rest]|].
  - intros [= <-]. split; [auto|lia].
  - intros H. destruct (final_list_ok_inv _ _ _ _ H) as (c & k & r & _ & E & _ & M).
    subst. split.
    + intros e He. apply in_app_or in He as [He|He].
      * left. apply in_or_app. left. exact He.
      * right. exists (first :: old_rest). split; [reflexivity|exact He].
    + rewrite !length_app. lia.
  - intros [= <-]. split; [auto|lia].
Qed.

Lemma merge_invents_nothing_witness :
  (forall e, In e [acme_jan3; bolt_jan2; cask_jan1] ->
     In e [acme_jan3; bolt_jan2]
     \/ exists old, Some [bolt_jan2; cask_jan1] = Some old /\ In e old)
  /\ List.length [acme_jan3; bolt_jan2; cask_jan1] <= 2 + 2.
Proof.
  apply (merge_invents_nothing [acme_jan3; bolt_jan2]
           [acme_jan3; bolt_jan2; cask_jan1] (Some [bolt_jan2; cask_jan1])).
  reflexivity.
Defined.

(** The newest stored timestamp never moves back: after a merge into a
    non-empty old list, the first entry of the result has a timestamp, and
    it is not below the old cutoff. *)
Theorem merge_cutoff_never_decreases
  (first cutoff : string) (old_rest new_entries merged : list string) :
  entry_timestamp first = Ok cutoff ->
  final_list new_entries (Some (first :: old_rest)) = Ok merged ->
  exists newest others ts,
    merged = newest :: others
    /\ entry_timestamp newest = Ok ts
    /\ str_le cutoff ts = true.
Proof.
  intros Hc H.
  destruct (final_list_ok_inv _ _ _ _ H) as (c & k & r & Hc' & _ & F & M).
  rewrite Hc in Hc'. injection Hc' as <-. subst merged.
  destruct k as [|x k].
  - exists first, old_rest, cutoff.
    split; [reflexivity|]. split; [exact Hc|apply str_le_refl].
  - cbn [forallb] in F. apply andb_prop in F as [Fx _].
    unfold newer_than in Fx.
    destruct (entry_timestamp x) as [ts|] eqn:Ex; [|discriminate].
    exists x, (k ++ first :: old_rest), ts.
    split; [reflexivity|]. split; [exact Ex|]. apply str_gt_le. exact Fx.
Qed.

Lemma merge_cutoff_never_decreases_witness :
  exists newest others ts,
    [acme_jan3; bolt_jan2; cask_jan1] = newest :: others
    /\ entry_timestamp newest = Ok ts
    /\ str_le "2024-01-02 10:00:00" ts = true.
Proof.
  apply (merge_cutoff_never_decreases bolt_jan2 "2024-01-02 10:00:00"
           [cask_jan1] [acme_jan3; bolt_jan2] _ eq_refl).
  reflexivity.
Defined.

(** ** The stored document: further facts *)

Lemma remove_char_idempotent (c : ascii) (s : string) :
  remove_char c (remove_char c s) = remove_char c s.
Proof.
  induction s as [|a s IH]; [reflexivity|]. cbn [remove_char].
  destruct (Ascii.eqb a c) eqn:E; [exact IH|].
  cbn [remove_char]. rewrite E, IH. reflexivity.
Qed.

Lemma line_boundary_first_piece (c : ascii) (s f : string) (fs : list string) :
  line_boundary (String c s) = 0 ->
  break_lines 0 s = f :: fs ->
  line_boundary (String c f) = 0.
Proof.
  unfold line_boundary.
  destruct (Ascii.eqb c CR).
  { destruct s as [|c2 s]; [discriminate|]. destruct (Ascii.eqb c2 LF); discriminate. }
  destruct (_ || _); [discriminate|].
  destruct (Ascii.eqb c "194").
  { destruct s as [|c2 s2]; cbn [break_lines].
    - intros _ [= <- _]. reflexivity.
    - intros H. destruct (line_boundary (String c2 s2)).
      + destruct (break_lines 0 s2); intros [= <- _]; exact H.
      + intros [= <- _]. reflexivity. }
  destruct (Ascii.eqb c "226"); [|reflexivity].
  destruct s as [|c2 s2]; cbn [break_lines].
  - intros _ [= <- _]. reflexivity.
  - destruct (line_boundary (String c2 s2)).
    + destruct s2 as [|c3 s3]; cbn [break_lines].
      * intros _ [= <- _]. reflexivity.
      * intros H. destruct (line_boundary (String c3 s3)).
        -- destruct (break_lines 0 s3); intros [= <- _]; exact H.
        -- intros [= <- _]. reflexivity.
    + intros _ [= <- _]. reflexivity.
Qed.

Lemma break_lines_plain (s : string) (skip : nat) :
  forallb plain (break_lines skip s) = true.
Proof.
  revert skip. induction s as [|c s IH]; intros skip; [reflexivity|].
  cbn [break_lines]. destruct skip as [|k]; [|apply IH].
  destruct (line_boundary (String c s)) as [|k] eqn:B.
  - pose proof (IH 0) as H0.
    destruct (break_lines 0 s) as [|f fs] eqn:E;
      [exfalso; exact (break_lines_nonempty 0 s E)|].
    cbn [forallb plain] in *. apply andb_prop in H0 as [Hf Hfs].
    rewrite (line_boundary_first_piece c s f fs B E), Hf, Hfs. reflexivity.
  - cbn [forallb plain]. apply IH.
Qed.

Lemma drop_last_empty_forallb (p : string -> bool) (ls : list string) :
  forallb p ls = true -> forallb p (drop_last_empty ls) = true.
Proof.
  induction ls as [|l ls IH]; [reflexivity|]. cbn [forallb drop_last_empty].
  intros H. apply andb_prop in H as [Hl H]. destruct ls as [|l2 ls].
  - destruct (String.eqb l EmptyString); [reflexivity|].
    cbn [forallb]. rewrite Hl. reflexivity.
  - cbn [forallb] in *. rewrite Hl. exact (IH H).
Qed.

Lemma skipn_forallb (p : string -> bool) (n : nat) (ls : list string) :
  forallb p ls = true -> forallb p (skipn n ls) = true.
Proof.
  revert ls. induction n as [|n IH]; intros ls H; [exact H|].
  destruct ls as [|l ls]; [reflexivity|]. cbn [skipn forallb] in *.
  apply andb_prop in H as [_ H]. exact (IH _ H).
Qed.

Lemma plain_free_of_cr_lf (s : string) :
  plain s = true -> free_of CR s = true /\ free_of LF s = true.
Proof.
  induction s as [|c t IH]; [split; reflexivity|]. cbn [plain free_of].
  intros H. apply andb_prop in H as [Hc Ht]. apply Nat.eqb_eq in Hc.
  destruct (IH Ht) as [I1 I2]. rewrite I1, I2. unfold line_boundary in Hc.
  destruct (Ascii.eqb c CR).
  { destruct t as [|c2 t]; [discriminate|]. destruct (Ascii.eqb c2 LF); discriminate. }
  destruct (Ascii.eqb c LF); [discriminate|]. split; reflexivity.
Qed.

(** Every line the read returns is a single line: it holds no carriage
    return, no line feed and no other line boundary. *)
Theorem read_returns_single_lines (now : string) (r : response) :
  status_code r = 200 ->
  exists lines,
    fst (fst (get_exisiting_entries now (Reply r))) = Some lines
    /\ forallb plain lines = true
    /\ forallb (free_of CR) lines = true
    /\ forallb (free_of LF) lines = true.
Proof.
  intros H. unfold get_exisiting_entries. rewrite H. cbn [Nat.eqb fst].
  eexists. split; [reflexivity|].
  assert (P : forallb plain
                (skipn (count_char LF (HEADING now))
                   (splitlines (remove_char CR (text r)))) = true).
  { apply skipn_forallb. unfold splitlines. apply drop_last_empty_forallb.
    apply break_lines_plain. }
  split; [exact P|].
  rewrite forallb_forall in P. split; apply forallb_forall; intros l Hl;
    apply (plain_free_of_cr_lf l (P l Hl)).
Qed.

Lemma read_returns_single_lines_witness :
  exists lines,
    fst (fst (get_exisiting_entries checked_at
                (Reply {| status_code := 200; ETag := None;
                          text := full_content "2024-01-02 23:00:00"
                                    (join (String CR NL)
                                       [bolt_jan2; cask_jan1]) |})))
    = Some lines
    /\ lines = [bolt_jan2; cask_jan1]
    /\ forallb plain lines = true
    /\ forallb (free_of CR) lines = true
    /\ forallb (free_of LF) lines = true.
Proof.
  destruct (read_returns_single_lines checked_at
              {| status_code := 200; ETag := None;
                 text := full_content "2024-01-02 23:00:00"
                           (join (String CR NL) [bolt_jan2; cask_jan1]) |}
              eq_refl) as (lines & E & P & C & L).
  exists lines. split; [exact E|]. split; [|split; [exact P|split; assumption]].
  assert (E' : fst (fst (get_exisiting_entries checked_at
                (Reply {| status_code := 200; ETag := None;
                          text := full_content "2024-01-02 23:00:00"
                                    (join (String CR NL)
                                       [bolt_jan2; cask_jan1]) |})))
               = Some [bolt_jan2; cask_jan1]) by reflexivity.
  rewrite E' in E. injection E as <-. reflexivity.
Defined.

(** Carriage returns in the stored text make no difference to what is
    read: a document with CRLF line ends reads as the same document with
    LF line ends. *)
Theorem read_ignores_carriage_returns (now : string) (r : response) :
  get_exisiting_entries now (Reply r)
  = get_exisiting_entries now
      (Reply {| status_code := status_code r; ETag := ETag r;
                text := remove_char CR (text r) |}).
Proof.
  unfold get_exisiting_entries. cbn [status_code ETag text].
  rewrite remove_char_idempotent. reflexivity.
Qed.

(** A store with no document, or with a document that has the heading and
    no row, makes the merge return the new entries as they are, in their
    order, whatever they hold. *)
Theorem empty_store_takes_new_entries (new_entries : list string) :
  (forall (now : string) (github_get : http),
      (forall r, github_get = Reply r -> status_code r <> 200) ->
      final_list new_entries (fst (fst (get_exisiting_entries now github_get)))
      = Ok new_entries)
  /\ (forall (written_at read_at : string) (etag : option string),
         plain written_at = true ->
         plain read_at = true ->
         fst (fst (get_exisiting_entries read_at (stored written_at etag [])))
         = Some []
         /\ final_list new_entries
              (fst (fst (get_exisiting_entries read_at
                           (stored written_at etag []))))
            = Ok new_entries).
Proof.
  split.
  - intros now [r|e|e] H; cbn [get_exisiting_entries]; [|reflexivity..].
    destruct (Nat.eqb_spec (status_code r) 200) as [E|E]; [|reflexivity].
    exfalso. exact (H r eq_refl E).
  - intros written_at read_at etag Hw Hr.
    rewrite (stored_lines_read_back written_at read_at etag [] Hw Hr eq_refl eq_refl).
    split; reflexivity.
Qed.

Lemma empty_store_takes_new_entries_witness :
  final_list ["torn row"; acme_jan3]
    (fst (fst (get_exisiting_entries checked_at (Reply not_found))))
  = Ok ["torn row"; acme_jan3]
  /\ final_list ["torn row"; acme_jan3]
       (fst (fst (get_exisiting_entries checked_at
                    (stored "2024-01-03 23:00:00" None []))))
     = Ok ["torn row"; acme_jan3].
Proof.
  split.
  - apply (proj1 (empty_store_takes_new_entries ["torn row"; acme_jan3])).
    intros r [= <-]. discriminate.
  - apply (proj2 (empty_store_takes_new_entries ["torn row"; acme_jan3])
             "2024-01-03 23:00:00" checked_at None); reflexivity.
Defined.

(** What was read from the store, written back and read again, is the
    same list, when no line of it is blank: a run that adds nothing leaves
    the rows of the document as they were. *)
Theorem read_write_read_stable
  (now written_at read_at : string) (r : response) (etag : option string)
  (lines : list string) :
  status_code r = 200 ->
  fst (fst (get_exisiting_entries now (Reply r))) = Some lines ->
  forallb (fun l => negb (String.eqb l EmptyString)) lines = true ->
  plain written_at = true ->
  plain read_at = true ->
  get_exisiting_entries read_at (stored written_at etag lines)
  = ((Some lines, etag), []).
Proof.
  intros H200 Hread Hn Hw Hr.
  destruct (read_returns_single_lines now r H200) as (ls & E & P & _).
  rewrite Hread in E. injection E as <-.
  apply stored_lines_read_back; assumption.
Qed.

Lemma read_write_read_stable_witness :
  get_exisiting_entries checked_at
    (stored checked_at None [bolt_jan2; cask_jan1])
  = ((Some [bolt_jan2; cask_jan1], None), []).
Proof.
  apply (read_write_read_stable "2024-01-02 23:00:00" checked_at checked_at
           {| status_code := 200; ETag := Some quoted_etag;
              text := full_content "2024-01-02 23:00:00"
                        (join (String CR NL) [bolt_jan2; cask_jan1]) |}
           None [bolt_jan2; cask_jan1]); reflexivity.
Defined.

(** ** The listing: further facts *)

Section PaginatorMore.

Variable soup : Type.
Variable tag : Type.
Variable BeautifulSoup : string -> soup.
Variable find_all_tr : soup -> list tag.
Variable get_text : tag -> string.
Variable find_input : soup -> string -> bool.
Variable get_filing_info : tag * tag -> result string.
Variable session_get : nat -> string -> http.

Local Abbreviation loop :=
  (get_8ks_loop soup tag BeautifulSoup find_all_tr get_text find_input
     get_filing_info session_get).
Local Abbreviation fetch :=
  (get_8ks soup tag BeautifulSoup find_all_tr get_text find_input
     get_filing_info session_get).
Local Abbreviation rows_of markup :=
  (tr_elements_with_item tag get_text (find_all_tr (BeautifulSoup markup))).
Local Abbreviation next_of markup :=
  (has_next soup find_input (BeautifulSoup markup)).
Local Abbreviation filings_of markup :=
  (add_filings tag get_filing_info EmptyString (rows_of markup)).
(** The pages before the one a fetch ends on: each loads with status 200,
    its rows extract, and it shows the next control. *)
Local Abbreviation walked pages texts :=
  (Forall2 (fun markup rows =>
              filings_of markup = Ok rows /\ next_of markup = true)
           pages texts
   /\ forall n i markup,
        nth_error pages i = Some markup ->
        exists r,
          session_get n (page_url i) = Reply r
          /\ status_code r = 200 /\ text r = markup).

Lemma add_filings_acc (elements : list (tag * tag)) (acc : string) :
  add_filings tag get_filing_info acc elements
  = (rows <- add_filings tag get_filing_info EmptyString elements ;;
     Ok (acc ++ rows)%string).
Proof.
  revert acc. induction elements as [|e rest IH]; intros acc.
  - cbn. rewrite append_empty_r. reflexivity.
  - cbn [add_filings]. destruct (get_filing_info e) as [row|err]; [|reflexivity].
    cbn [Py.bind]. rewrite (IH (acc ++ row)%string), (IH (EmptyString ++ row)%string).
    destruct (add_filings tag get_filing_info EmptyString rest); [|reflexivity].
    cbn. rewrite append_assoc. reflexivity.
Qed.

(** One iteration on a page that loads, extracts and shows the next
    control. *)
Lemma loop_next_page (fuel page index : nat) (acc rows : string) (r : response) :
  session_get (page + 1) (get_sec_url index) = Reply r ->
  status_code r = 200 ->
  filings_of (text r) = Ok rows ->
  next_of (text r) = true ->
  result_of (loop (S fuel) page index acc)
  = result_of (loop fuel (page + 1) (index + FILINGS_PER_PAGE) (acc ++ rows)%string)
  /\ requests (loop (S fuel) page index acc)
     = get_sec_url index
       :: requests (loop fuel (page + 1) (index + FILINGS_PER_PAGE)
                      (acc ++ rows)%string).
Proof.
  intros Hs H200 Hrows Hnext. cbn [get_8ks_loop].
  rewrite Hs, H200. cbn [Nat.eqb negb].
  rewrite add_filings_acc, Hrows. cbn [Py.bind]. rewrite Hnext. cbn [negb].
  split; reflexivity.
Qed.

(** The pages of a listing that load, extract and show the next control
    are gone through one request each, their rows added in order. *)
Lemma loop_through_pages (pages : list string) :
  forall (texts : list string) (k page fuel : nat) (acc : string),
    Forall2 (fun markup rows =>
               filings_of markup = Ok rows /\ next_of markup = true)
            pages texts ->
    (forall n i markup,
        nth_error pages i = Some markup ->
        exists r,
          session_get n (page_url (k + i)) = Reply r
          /\ status_code r = 200 /\ text r = markup) ->
    result_of (loop (List.length pages + fuel) page (k * FILINGS_PER_PAGE) acc)
    = result_of (loop fuel (page + List.length pages)
                   ((k + List.length pages) * FILINGS_PER_PAGE)
                   (acc ++ String.concat EmptyString texts)%string)
    /\ requests (loop (List.length pages + fuel) page (k * FILINGS_PER_PAGE) acc)
       = map page_url (seq k (List.length pages))
         ++ requests (loop fuel (page + List.length pages)
                        ((k + List.length pages) * FILINGS_PER_PAGE)
                        (acc ++ String.concat EmptyString texts)%string).
Proof.
  induction pages as [|markup pages IH]; intros texts k page fuel acc HF Hs.
  - inversion HF; subst. cbn [List.length Nat.add seq map app String.concat].
    rewrite !Nat.add_0_r, append_empty_r. split; reflexivity.
  - inversion HF as [|m rows ps ts [Hrows Hnext] HF']; subst.
    destruct (Hs (page + 1) 0 markup eq_refl) as (r & Hr & H200 & Ht).
    rewrite Nat.add_0_r in Hr. unfold page_url in Hr.
    rewrite <- Ht in Hrows, Hnext.
    destruct (loop_next_page (List.length pages + fuel) page
                (k * FILINGS_PER_PAGE) acc rows r Hr H200 Hrows Hnext)
      as [R Q].
    rewrite <- Nat.mul_succ_l in R, Q.
    destruct (IH ts (S k) (page + 1) fuel (acc ++ rows)%string HF') as [R' Q'].
    { intros n i mk Hi. replace (S k + i) with (k + S i) by lia.
      apply Hs. exact Hi. }
    cbn [List.length Nat.add seq map app]. rewrite R, Q, R', Q'.
    replace (page + 1 + List.length pages) with (page + S (List.length pages))
      by lia.
    replace (S k + List.length pages) with (k + S (List.length pages)) by lia.
    assert (A : ((acc ++ rows) ++ String.concat EmptyString ts)%string
                = (acc ++ String.concat EmptyString (rows :: ts))%string).
    { rewrite append_assoc. destruct ts; cbn [String.concat append];
        rewrite ?append_empty_r; reflexivity. }
    rewrite A. split; reflexivity.
Qed.


Lemma loop_bad_status (fuel page index : nat) (acc : string) (r : response) :
  session_get (page + 1) (get_sec_url index) = Reply r ->
  status_code r <> 200 ->
  result_of (loop (S fuel) page index acc) = Returned None
  /\ requests (loop (S fuel) page index acc) = [get_sec_url index].
Proof.
  intros Hs Hne. cbn [get_8ks_loop]. rewrite Hs.
  destruct (Nat.eqb_spec (status_code r) 200) as [E|E]; [contradiction|].
  split; reflexivity.
Qed.

Lemma loop_bad_row (fuel page index : nat) (acc : string) (r : response)
  (e : exn) :
  session_get (page + 1) (get_sec_url index) = Reply r ->
  status_code r = 200 ->
  filings_of (text r) = Raise e ->
  result_of (loop (S fuel) page index acc) = Raised e
  /\ requests (loop (S fuel) page index acc) = [get_sec_url index].
Proof.
  intros Hs H200 Hrows. cbn [get_8ks_loop].
  rewrite Hs, H200. cbn [Nat.eqb negb].
  rewrite add_filings_acc, Hrows. cbn [Py.bind]. split; reflexivity.
Qed.

Lemma seq_snoc (k n : nat) : seq k (S n) = seq k n ++ [k + n].
Proof. rewrite seq_S. reflexivity. Qed.

Lemma walked_through (pages texts : list string) (fuel : nat) :
  walked pages texts ->
  result_of (fetch (List.length pages + fuel))
  = result_of (loop fuel (List.length pages)
                 (List.length pages * FILINGS_PER_PAGE)
                 (String.concat EmptyString texts))
  /\ requests (fetch (List.length pages + fuel))
     = map page_url (seq 0 (List.length pages))
       ++ requests (loop fuel (List.length pages)
                      (List.length pages * FILINGS_PER_PAGE)
                      (String.concat EmptyString texts)).
Proof.
  intros [HF Hs]. unfold get_8ks.
  exact (loop_through_pages pages texts 0 0 fuel EmptyString HF Hs).
Qed.


(** A page that comes back with a status other than 200 ends the fetch
    with [None]: the rows collected on the pages before it are dropped,
    and no further page is requested. *)
Theorem fetch_drops_all_on_bad_status
  (pages texts : list string) (r : response) (fuel : nat) :
  walked pages texts ->
  (forall n, session_get n (page_url (List.length pages)) = Reply r) ->
  status_code r <> 200 ->
  List.length pages < fuel ->
  result_of (fetch fuel) = Returned None
  /\ requests (fetch fuel) = map page_url (seq 0 (S (List.length pages))).
Proof.
  intros W Hs Hne Hfuel.
  replace fuel with (List.length pages + S (fuel - S (List.length pages)))
    by lia.
  destruct (walked_through pages texts (S (fuel - S (List.length pages))) W)
    as [R Q].
  destruct (loop_bad_status (fuel - S (List.length pages)) (List.length pages)
              (List.length pages * FILINGS_PER_PAGE)
              (String.concat EmptyString texts) r (Hs _) Hne) as [R' Q'].
  rewrite R, Q, R', Q', seq_snoc, map_app. split; reflexivity.
Qed.

(** An exception of the extraction on a row of some page leaves the fetch:
    it is not caught, nothing is returned, and no further page is
    requested. *)
Theorem fetch_raises_on_bad_row
  (pages texts : list string) (r : response) (e : exn) (fuel : nat) :
  walked pages texts ->
  (forall n, session_get n (page_url (List.length pages)) = Reply r) ->
  status_code r = 200 ->
  filings_of (text r) = Raise e ->
  List.length pages < fuel ->
  result_of (fetch fuel) = Raised e
  /\ requests (fetch fuel) = map page_url (seq 0 (S (List.length pages))).
Proof.
  intros W Hs H200 Hrows Hfuel.
  replace fuel with (List.length pages + S (fuel - S (List.length pages)))
    by lia.
  destruct (walked_through pages texts (S (fuel - S (List.length pages))) W)
    as [R Q].
  destruct (loop_bad_row (fuel - S (List.length pages)) (List.length pages)
              (List.length pages * FILINGS_PER_PAGE)
              (String.concat EmptyString texts) r e (Hs _) H200 Hrows)
    as [R' Q'].
  rewrite R, Q, R', Q', seq_snoc, map_app. split; reflexivity.
Qed.

Lemma walked_listing (listing : nat -> string) (n : nat) :
  (forall m k, exists r,
      session_get m (page_url k) = Reply r
      /\ status_code r = 200 /\ text r = listing k) ->
  (forall k, exists rows, filings_of (listing k) = Ok rows) ->
  (forall k, next_of (listing k) = true) ->
  exists texts, walked (map listing (seq 0 n)) texts.
Proof.
  intros Hs Hrows Hnext.
  assert (F : forall k, exists texts,
             Forall2 (fun markup rows =>
                        filings_of markup = Ok rows /\ next_of markup = true)
                     (map listing (seq k n)) texts).
  { induction n as [|n IH]; intros k.
    - exists []. constructor.
    - destruct (Hrows k) as (rows & Hr). destruct (IH (S k)) as (ts & Hts).
      exists (rows :: ts). cbn [seq map]. constructor; [|exact Hts].
      split; [exact Hr|apply Hnext]. }
  destruct (F 0) as (texts & HF). exists texts. split; [exact HF|].
  intros m i markup Hi. destruct (Hs m i) as (r & Hr & H200 & Ht).
  exists r. repeat split; try assumption.
  rewrite nth_error_map in Hi.
  destruct (nth_error (seq 0 n) i) as [j|] eqn:Ej; [|discriminate].
  assert (Hlt : i < List.length (seq 0 n))
    by (apply nth_error_Some; rewrite Ej; discriminate).
  rewrite length_seq in Hlt.
  apply (nth_error_nth _ _ 0) in Ej. rewrite seq_nth in Ej by assumption.
  subst j. injection Hi as <-. exact Ht.
Qed.

(** The loop has no page limit: while every page loads, extracts and shows
    the next control, the fetch goes on to the next offset and never
    returns. *)
Theorem fetch_has_no_page_limit (listing : nat -> string) (fuel : nat) :
  (forall m k, exists r,
      session_get m (page_url k) = Reply r
      /\ status_code r = 200 /\ text r = listing k) ->
  (forall k, exists rows, filings_of (listing k) = Ok rows) ->
  (forall k, next_of (listing k) = true) ->
  result_of (fetch fuel) = Pending
  /\ requests (fetch fuel) = map page_url (seq 0 fuel).
Proof.
  intros Hs Hrows Hnext.
  destruct (walked_listing listing fuel Hs Hrows Hnext) as (texts & W).
  destruct (walked_through _ texts 0 W) as [R Q].
  rewrite length_map, length_seq, Nat.add_0_r in R, Q.
  rewrite R, Q. cbn [get_8ks_loop stop result_of requests].
  rewrite app_nil_r. split; reflexivity.
Qed.

End PaginatorMore.

(** ** The run: [main] *)

Section MainFacts.

Variable soup : Type.
Variable tag : Type.
Variable BeautifulSoup : string -> soup.
Variable find_all_tr : soup -> list tag.
Variable get_text : tag -> string.
Variable find_input : soup -> string -> bool.
Variable get_filing_info : tag * tag -> result string.
Variable session_get : nat -> string -> http.

Local Abbreviation fetch :=
  (get_8ks soup tag BeautifulSoup find_all_tr get_text find_input
     get_filing_info session_get).
Local Abbreviation run_main :=
  (main soup tag BeautifulSoup find_all_tr get_text find_input
     get_filing_info session_get).

(** What [main] does once the fetch has returned filings and the merge has
    gone through. *)
Lemma main_writes_merge (fuel : nat) (now filings : string) (github_get : http)
  (github_put : payload -> http) (merged : list string) :
  result_of (fetch fuel) = Returned (Some filings) ->
  final_list (splitlines filings)
    (fst (fst (get_exisiting_entries now github_get))) = Ok merged ->
  result_of (run_main fuel now github_get github_put)
  = result_of (update_github_file github_put now (join NL merged)
                 (snd (fst (get_exisiting_entries now github_get))))
  /\ requests (run_main fuel now github_get github_put) = requests (fetch fuel).
Proof.
  intros Hf Hm. unfold main. rewrite Hf.
  destruct (get_exisiting_entries now github_get) as [[existing sha] read_log].
  cbn [fst snd] in *. unfold get_final_string. rewrite Hm. cbn [Py.bind].
  split; reflexivity.
Qed.


(** A fetch that ends without filings ends the run before the store is
    read or written: after a failed page ([None]) the run leaves with
    [AttributeError], and an exception of the extraction goes through;
    the store plays no part. *)
Theorem main_stops_without_filings (fuel : nat) (now : string)
  (github_get : http) (github_put : payload -> http) :
  (result_of (fetch fuel) = Returned None ->
   result_of (run_main fuel now github_get github_put) = Raised AttributeError)
  /\ (forall e,
         result_of (fetch fuel) = Raised e ->
         result_of (run_main fuel now github_get github_put) = Raised e)
  /\ (result_of (fetch fuel) = Returned None
      \/ (exists e, result_of (fetch fuel) = Raised e) ->
      forall github_get' github_put',
        run_main fuel now github_get github_put
        = run_main fuel now github_get' github_put').
Proof.
  split; [|split].
  - intros H. unfold main. rewrite H. reflexivity.
  - intros e H. unfold main. rewrite H. reflexivity.
  - intros [H|[e H]] g' p'; unfold main; rewrite H; reflexivity.
Qed.

(** A run writes back the rows it fetched that are newer than the newest
    stored row, followed by the stored rows as they were, under a new
    heading and with the entity tag it read (less its quotes); a run that
    fetched nothing newer writes the stored rows back alone. *)
Theorem main_prepends_newer_rows (fuel : nat) (now written_at filings : string)
  (etag : option string) (first cutoff : string)
  (old_rest kept rest : list string)
  (github_put : payload -> http) (answer : response) :
  result_of (fetch fuel) = Returned (Some filings) ->
  plain written_at = true ->
  plain now = true ->
  forallb plain (first :: old_rest) = true ->
  forallb (fun l => negb (String.eqb l EmptyString)) (first :: old_rest) = true ->
  entry_timestamp first = Ok cutoff ->
  splitlines filings = kept ++ rest ->
  forallb (newer_than cutoff) kept = true ->
  match rest with
  | [] => True
  | e :: _ => not_newer_than cutoff e = true
  end ->
  github_put (put_payload now (join NL (kept ++ first :: old_rest)) etag)
  = Reply answer ->
  result_of (run_main fuel now (stored written_at etag (first :: old_rest))
               github_put)
  = Returned (put_payload now (join NL (kept ++ first :: old_rest)) etag)
  /\ content (put_payload now (join NL (kept ++ first :: old_rest)) etag)
     = b64encode (HEADING now ++ join NL (kept ++ first :: old_rest)).
Proof.
  intros Hf Hw Hn Hp Hne Hc Hsplit Hk Hrest Hput.
  pose proof (stored_lines_read_back written_at now etag (first :: old_rest)
                Hw Hn Hp Hne) as Hread.
  destruct (main_writes_merge fuel now filings
              (stored written_at etag (first :: old_rest)) github_put
              (kept ++ first :: old_rest) Hf) as [R _].
  { rewrite Hread, Hsplit. cbn [fst].
    exact (final_list_split first cutoff old_rest kept rest Hc Hk Hrest). }
  rewrite R, Hread. cbn [fst snd]. unfold update_github_file. rewrite Hput.
  split; reflexivity.
Qed.

(** A stored document whose first row has no timestamp column stops every
    run: the merge raises [IndexError] and nothing is written, whatever
    was fetched. *)
Theorem main_blocked_by_torn_first_row (fuel : nat) (now filings : string)
  (r : response) (first : string) (old_rest : list string)
  (github_put : payload -> http) :
  result_of (fetch fuel) = Returned (Some filings) ->
  status_code r = 200 ->
  fst (fst (get_exisiting_entries now (Reply r))) = Some (first :: old_rest) ->
  has_timestamp first = false ->
  result_of (run_main fuel now (Reply r) github_put) = Raised IndexError.
Proof.
  intros Hf H200 Hread Ht. unfold main. rewrite Hf.
  destruct (get_exisiting_entries now (Reply r)) as [[existing sha] read_log].
  cbn [fst] in Hread. subst existing.
  unfold get_final_string, final_list. unfold has_timestamp in Ht.
  destruct (entry_timestamp first) as [c|e] eqn:E; [discriminate|].
  rewrite (entry_timestamp_raise _ _ E). reflexivity.
Qed.

End MainFacts.

(** ** Sample runs *)

Lemma walked_first_page :
  Forall2
    (fun markup rows =>
       add_filings PlainText.tag PlainText.get_filing_info EmptyString
         (tr_elements_with_item PlainText.tag PlainText.get_text
            (PlainText.find_all_tr (PlainText.BeautifulSoup markup)))
       = Ok rows
       /\ has_next PlainText.soup PlainText.find_input
            (PlainText.BeautifulSoup markup) = true)
    [first_page] [first_page_rows].
Proof. constructor; [split; reflexivity|constructor]. Defined.


Lemma fetch_drops_all_on_bad_status_witness :
  result_of (PlainText.get_8ks broken_second 2) = Returned None
  /\ requests (PlainText.get_8ks broken_second 2) = map page_url (seq 0 2).
Proof.
  apply (fetch_drops_all_on_bad_status PlainText.soup PlainText.tag
           PlainText.BeautifulSoup PlainText.find_all_tr PlainText.get_text
           PlainText.find_input PlainText.get_filing_info broken_second
           [first_page] [first_page_rows] server_error 2).
  - split; [exact walked_first_page|].
    intros n [|i] markup H; [|destruct i; discriminate].
    injection H as <-. eexists. repeat split.
  - reflexivity.
  - discriminate.
  - simpl. lia.
Defined.

Lemma fetch_raises_on_bad_row_witness :
  result_of (get_8ks PlainText.soup PlainText.tag PlainText.BeautifulSoup
               PlainText.find_all_tr PlainText.get_text PlainText.find_input
               no_anchor two_pages 1)
  = Raised AttributeError
  /\ requests (get_8ks PlainText.soup PlainText.tag PlainText.BeautifulSoup
                 PlainText.find_all_tr PlainText.get_text PlainText.find_input
                 no_anchor two_pages 1)
     = map page_url (seq 0 1).
Proof.
  apply (fetch_raises_on_bad_row PlainText.soup PlainText.tag
           PlainText.BeautifulSoup PlainText.find_all_tr PlainText.get_text
           PlainText.find_input no_anchor two_pages [] []
           {| status_code := 200; ETag := None; text := first_page |}
           AttributeError 1).
  - split; [constructor|]. intros n [|i] markup H; discriminate.
  - reflexivity.
  - reflexivity.
  - reflexivity.
  - simpl. lia.
Defined.

Lemma fetch_has_no_page_limit_witness :
  result_of (PlainText.get_8ks endless 3) = Pending
  /\ requests (PlainText.get_8ks endless 3) = map page_url (seq 0 3).
Proof.
  apply (fetch_has_no_page_limit PlainText.soup PlainText.tag
           PlainText.BeautifulSoup PlainText.find_all_tr PlainText.get_text
           PlainText.find_input PlainText.get_filing_info endless
           (fun _ => first_page) 3).
  - intros m k. eexists. repeat split.
  - intros k. exists first_page_rows. reflexivity.
  - intros k. reflexivity.
Defined.


Lemma main_stops_without_filings_witness :
  result_of (main PlainText.soup PlainText.tag PlainText.BeautifulSoup
               PlainText.find_all_tr PlainText.get_text PlainText.find_input
               PlainText.get_filing_info broken_second 2 checked_at
               (Reply not_found) accept_write)
  = Raised AttributeError.
Proof.
  apply (proj1 (main_stops_without_filings PlainText.soup PlainText.tag
                  PlainText.BeautifulSoup PlainText.find_all_tr
                  PlainText.get_text PlainText.find_input
                  PlainText.get_filing_info broken_second 2 checked_at
                  (Reply not_found) accept_write)).
  reflexivity.
Defined.

Lemma main_prepends_newer_rows_witness :
  result_of (main PlainText.soup PlainText.tag PlainText.BeautifulSoup
               PlainText.find_all_tr PlainText.get_text PlainText.find_input
               PlainText.get_filing_info two_pages 2 checked_at
               (stored "2024-01-02 23:00:00" (Some quoted_etag)
                  [bolt_jan2; cask_jan1])
               accept_write)
  = Returned (put_payload checked_at
                (join NL ([acme_jan3] ++ [bolt_jan2; cask_jan1]))
                (Some quoted_etag))
  /\ content (put_payload checked_at
                (join NL ([acme_jan3] ++ [bolt_jan2; cask_jan1]))
                (Some quoted_etag))
     = b64encode (HEADING checked_at
                  ++ join NL ([acme_jan3] ++ [bolt_jan2; cask_jan1])).
Proof.
  apply (main_prepends_newer_rows PlainText.soup PlainText.tag
           PlainText.BeautifulSoup PlainText.find_all_tr PlainText.get_text
           PlainText.find_input PlainText.get_filing_info two_pages 2
           checked_at "2024-01-02 23:00:00" first_page_rows
           (Some quoted_etag) bolt_jan2 "2024-01-02 10:00:00" [cask_jan1]
           [acme_jan3] []
           accept_write {| status_code := 200; ETag := None; text := "{}" |});
    reflexivity.
Defined.

Lemma main_blocked_by_torn_first_row_witness :
  result_of (main PlainText.soup PlainText.tag PlainText.BeautifulSoup
               PlainText.find_all_tr PlainText.get_text PlainText.find_input
               PlainText.get_filing_info two_pages 2 checked_at
               (stored "2024-01-03 23:00:00" None ["torn row"; bolt_jan2])
               accept_write)
  = Raised IndexError.
Proof.
  apply (main_blocked_by_torn_first_row PlainText.soup PlainText.tag
           PlainText.BeautifulSoup PlainText.find_all_tr PlainText.get_text
           PlainText.find_input PlainText.get_filing_info two_pages 2
           checked_at first_page_rows
           {| status_code := 200; ETag := None;
              text := full_content "2024-01-03 23:00:00"
                        (join NL ["torn row"; bolt_jan2]) |}
           "torn row" [bolt_jan2] accept_write); reflexivity.
Defined.

(** ** The page URL *)

Lemma str_of_nat_inj (a b : nat) : str_of_nat a = str_of_nat b -> a = b.
Proof.
  unfold str_of_nat. intros H.
  assert (E : Some (Nat.to_uint a) = Some (Nat.to_uint b)).
  { rewrite <- (NilEmpty.usu (Nat.to_uint a)), <- (NilEmpty.usu (Nat.to_uint b)), H.
    reflexivity. }
  injection E as E.
  rewrite <- (DecimalNat.Unsigned.of_to a), <- (DecimalNat.Unsigned.of_to b), E.
  reflexivity.
Qed.

Lemma append_length (a b : string) :
  String.length (a ++ b) = String.length a + String.length b.
Proof. induction a as [|x a IH]; [reflexivity|]. cbn. rewrite IH. reflexivity. Qed.

Lemma append_inj_same_length (a b s t : string) :
  String.length a = String.length b ->
  (a ++ s)%string = (b ++ t)%string -> a = b.
Proof.
  revert b. induction a as [|x a IH]; intros [|y b] L H; try discriminate.
  - reflexivity.
  - cbn in L, H. injection H as -> H. injection L as L.
    rewrite (IH b L H). reflexivity.
Qed.

Lemma append_inj_suffix (a b s : string) :
  (a ++ s)%string = (b ++ s)%string -> a = b.
Proof.
  intros H. apply (append_inj_same_length a b s s); [|exact H].
  apply (f_equal String.length) in H. rewrite !append_length in H. lia.
Qed.

Lemma append_inj_prefix (p a b : string) :
  (p ++ a)%string = (p ++ b)%string -> a = b.
Proof.
  induction p as [|x p IH]; [auto|]. cbn. intros [= H]. exact (IH H).
Qed.

(** Different offsets give different URLs: the page a request asks for is
    told by its URL alone. *)
Theorem get_sec_url_injective (i j : nat) :
  get_sec_url i = get_sec_url j -> i = j.
Proof.
  unfold get_sec_url. rewrite <- !append_assoc. intros H.
  apply append_inj_suffix in H. apply append_inj_suffix in H.
  apply append_inj_prefix in H. apply str_of_nat_inj. exact H.
Qed.

Lemma get_sec_url_injective_witness :
  get_sec_url 100 = get_sec_url (1 * FILINGS_PER_PAGE) /\ 100 = 1 * FILINGS_PER_PAGE.
Proof.
  split; [reflexivity|].
  apply (get_sec_url_injective 100 (1 * FILINGS_PER_PAGE)). reflexivity.
Defined.

(** ** Whitespace: facts *)

Ltac split_ifs :=
  repeat match goal with
         | |- context [if ?b then _ else _] => destruct b
         end.

Lemma whitespace_len_app (s y : string) (k : nat) :
  whitespace_len s = S k -> whitespace_len (s ++ y) = S k.
Proof.
  unfold whitespace_len.
  destruct s as [|c1 [|c2 [|c3 s]]]; cbn [append]; try discriminate;
    split_ifs; try discriminate; auto.
Qed.

Lemma whitespace_len_le (s : string) : whitespace_len s <= String.length s.
Proof.
  unfold whitespace_len.
  destruct s as [|c1 [|c2 [|c3 s]]]; cbn [String.length]; split_ifs; lia.
Qed.

Lemma whitespace_span_app (x y : string) (k : nat) :
  k <= String.length x ->
  whitespace_span k x = String.length x ->
  whitespace_span k (x ++ y) = String.length x + whitespace_span 0 y.
Proof.
  revert k. induction x as [|c x IH]; intros k Hk H.
  - cbn [String.length] in Hk. replace k with 0 by lia. reflexivity.
  - cbn [String.length append whitespace_span] in *. destruct k as [|k].
    + destruct (whitespace_len (String c x)) as [|n] eqn:W; [discriminate|].
      change (String c (x ++ y)) with (String c x ++ y)%string.
      rewrite (whitespace_len_app _ y _ W).
      pose proof (whitespace_len_le (String c x)) as L. rewrite W in L.
      cbn [String.length] in L.
      rewrite (IH n); [reflexivity|lia|lia].
    + rewrite (IH k); [reflexivity|lia|lia].
Qed.

Lemma all_whitespace_app (x y : string) :
  all_whitespace x = true -> all_whitespace y = true ->
  all_whitespace (x ++ y) = true.
Proof.
  unfold all_whitespace. intros Hx Hy.
  apply Nat.eqb_eq in Hx. apply Nat.eqb_eq in Hy. apply Nat.eqb_eq.
  rewrite (whitespace_span_app x y 0 (Nat.le_0_l _) Hx), Hy, append_length.
  reflexivity.
Qed.

Lemma whitespace_span_drop (s : string) (k : nat) :
  whitespace_len (drop (whitespace_span k s) s) = 0.
Proof.
  revert k. induction s as [|c s IH]; intros k.
  - destruct k; reflexivity.
  - cbn [whitespace_span]. destruct k as [|k].
    + destruct (whitespace_len (String c s)) as [|n] eqn:W.
      * cbn [drop]. exact W.
      * cbn [drop]. apply IH.
    + cbn [drop]. apply IH.
Qed.

(** What [rstrip_ws] takes away is whitespace at the end. *)
Lemma rstrip_ws_spec (s : string) :
  exists tail, s = (rstrip_ws s ++ tail)%string /\ all_whitespace tail = true.
Proof.
  induction s as [|c s IH].
  - exists EmptyString. split; reflexivity.
  - cbn [rstrip_ws]. destruct (all_whitespace (String c s)) eqn:A.
    + exists (String c s). split; [reflexivity|exact A].
    + destruct IH as (tail & E & T). exists tail. split; [|exact T].
      cbn [append]. rewrite <- E. reflexivity.
Qed.

Lemma rstrip_ws_no_tail (s a b : string) :
  rstrip_ws s = (a ++ b)%string -> all_whitespace b = true -> b = EmptyString.
Proof.
  revert a. induction s as [|c s IH]; intros a E Hb.
  - destruct a; [exact (eq_sym E)|discriminate].
  - cbn [rstrip_ws] in E. destruct (all_whitespace (String c s)) eqn:A.
    + destruct a; [exact (eq_sym E)|discriminate].
    + destruct a as [|x a].
      * cbn [append] in E. subst b. exfalso.
        destruct (rstrip_ws_spec s) as (tail & Es & T).
        assert (X : all_whitespace (String c (rstrip_ws s) ++ tail) = true)
          by (apply all_whitespace_app; assumption).
        cbn [append] in X. rewrite <- Es in X. congruence.
      * cbn [append] in E. injection E as <- E. exact (IH a E Hb).
Qed.

(** [strip_ws] leaves no whitespace at either end. *)
Lemma strip_ws_trimmed (s : string) :
  whitespace_len (strip_ws s) = 0
  /\ forall a b,
       strip_ws s = (a ++ b)%string -> all_whitespace b = true ->
       b = EmptyString.
Proof.
  split.
  - unfold strip_ws.
    destruct (rstrip_ws_spec (lstrip_ws s)) as (tail & E & _).
    pose proof (whitespace_span_drop s 0) as W. fold (lstrip_ws s) in W.
    destruct (whitespace_len (rstrip_ws (lstrip_ws s))) as [|n] eqn:L;
      [reflexivity|].
    rewrite E, (whitespace_len_app _ tail _ L) in W. discriminate.
  - intros a b. apply rstrip_ws_no_tail.
Qed.

(** ** The extraction: facts *)

Lemma filer_match_other (c : ascii) (s : string) :
  Ascii.eqb c "("%char = false -> filer_match (String c s) = 0.
Proof. intros H. unfold filer_match. rewrite H. reflexivity. Qed.

Lemma sub_filer_free (name rest : string) :
  free_of "("%char name = true ->
  sub_filer 0 (name ++ rest) = (name ++ sub_filer 0 rest)%string.
Proof.
  induction name as [|c t IH]; [reflexivity|]. cbn [free_of append].
  intros H. apply andb_prop in H as [Hc Ht]. apply negb_true_iff in Hc.
  cbn [sub_filer]. rewrite (filer_match_other _ _ Hc), (IH Ht). reflexivity.
Qed.

Lemma sub_filer_skip_all (s : string) (k : nat) :
  String.length s <= k -> sub_filer k s = EmptyString.
Proof.
  revert k. induction s as [|c s IH]; intros k H; [reflexivity|].
  cbn [String.length] in H. destruct k as [|k]; [lia|].
  cbn [sub_filer]. apply IH. lia.
Qed.

Lemma find_close_free (cik after : string) :
  free_of ")"%char cik = true ->
  find_close (cik ++ String ")"%char after) = Some (String.length cik, after).
Proof.
  induction cik as [|c t IH]; [reflexivity|]. cbn [free_of append].
  intros H. apply andb_prop in H as [Hc Ht]. apply negb_true_iff in Hc.
  cbn [find_close String.length]. rewrite Hc, (IH Ht). reflexivity.
Qed.

Lemma filer_match_annotation (cik ws : string) :
  free_of ")"%char cik = true ->
  all_whitespace ws = true ->
  filer_match ("(" ++ cik ++ ") (Filer)" ++ ws)
  = String.length ("(" ++ cik ++ ") (Filer)" ++ ws).
Proof.
  intros Hc Hw. apply Nat.eqb_eq in Hw.
  change ("(" ++ cik ++ ") (Filer)" ++ ws)%string
    with (String "("%char (cik ++ String ")"%char (" (Filer)" ++ ws)))%string.
  unfold filer_match. change (Ascii.eqb "(" "(") with true. cbn iota.
  rewrite (find_close_free _ _ Hc).
  assert (P : String.prefix " (Filer)" (" (Filer)" ++ ws) = true)
    by (cbn; destruct ws; reflexivity).
  rewrite P.
  change (drop 8 (" (Filer)" ++ ws)) with ws. rewrite Hw.
  cbn [String.length]. rewrite append_length. cbn [String.length append].
  lia.
Qed.

(** The substitution takes out the annotation that follows a company
    name, an opened parenthesis up to the first [)], then [ (Filer)] and
    the whitespace after it, and leaves a text with no [(] as it is. *)
Lemma sub_filer_annotation (name : string) :
  free_of "("%char name = true ->
  sub_filer 0 name = name
  /\ forall cik ws,
       free_of ")"%char cik = true ->
       all_whitespace ws = true ->
       sub_filer 0 (name ++ "(" ++ cik ++ ") (Filer)" ++ ws) = name.
Proof.
  intros Hn. split.
  - rewrite <- (append_empty_r name) at 1. rewrite (sub_filer_free _ _ Hn).
    cbn [sub_filer]. apply append_empty_r.
  - intros cik ws Hc Hw. rewrite (sub_filer_free _ _ Hn).
    pose proof (filer_match_annotation cik ws Hc Hw) as M.
    remember ("(" ++ cik ++ ") (Filer)" ++ ws)%string as ann eqn:E.
    destruct ann as [|c t]; [discriminate|].
    cbn [sub_filer]. rewrite M. cbn [String.length].
    rewrite (sub_filer_skip_all t _ (le_n _)). apply append_empty_r.
Qed.

Lemma break_lines_one_line (l : string) :
  plain l = true -> splitlines (l ++ NL) = [l].
Proof.
  intros H. unfold splitlines, NL. rewrite (break_lines_line _ _ H).
  cbn [break_lines drop_last_empty]. destruct l; reflexivity.
Qed.

Section ExtractorFacts.

Variable tag : Type.
Variable find_a : tag -> option string.
Variable find_td : tag -> option string.
Variable find_html : tag -> option (option string).
Variable reformat : string -> result string.

Local Abbreviation extract :=
  (Extractor.get_filing_info tag find_a find_td find_html reformat).

(** On a pair of rows that has the three elements, with a company text
    made of a name, the annotation in parentheses up to [ (Filer)] and
    whitespace, the row returned holds the name stripped of whitespace,
    the reformatted date and the link to the document on the SEC site. *)
Theorem get_filing_info_cleans_company
  (element : tag * tag) (name cik ws cell date path : string) :
  free_of "("%char name = true ->
  free_of ")"%char cik = true ->
  all_whitespace ws = true ->
  find_a (fst element) = Some (name ++ "(" ++ cik ++ ") (Filer)" ++ ws)%string ->
  find_td (snd element) = Some cell ->
  reformat cell = Ok date ->
  find_html (snd element) = Some (Some path) ->
  extract element
  = Ok ("|" ++ strip_ws name ++ "|" ++ date
        ++ "|[link](https://www.sec.gov" ++ path ++ ")|" ++ NL)%string.
Proof.
  intros Hn Hc Hw Ha Hd Hr Hh. unfold Extractor.get_filing_info.
  rewrite Ha, Hd, Hr. cbn [Py.bind]. rewrite Hh.
  rewrite (proj2 (sub_filer_annotation name Hn) cik ws Hc Hw).
  cbn [append]. rewrite !append_assoc. reflexivity.
Qed.

(** A row that the extraction returns is one table row and a newline: it
    is read back by [splitlines] as one entry when its columns hold no
    line boundary, and the timestamp column of that entry is the
    reformatted date when the company and the date hold no [|]. *)
Theorem extracted_row_is_one_entry (element : tag * tag) (row : string) :
  extract element = Ok row ->
  exists f : filing,
    row = (filing_row f ++ NL)%string
    /\ (exists a, find_a (fst element) = Some a
                  /\ company f = strip_ws (sub_filer 0 a))
    /\ (exists cell, find_td (snd element) = Some cell
                     /\ reformat cell = Ok (date_time f))
    /\ (plain_filing f = true -> splitlines row = [filing_row f])
    /\ (free_of PIPE (company f) = true ->
        free_of PIPE (date_time f) = true ->
        entry_timestamp (filing_row f) = Ok (date_time f)).
Proof.
  unfold Extractor.get_filing_info.
  destruct (find_a (fst element)) as [a|]; [|discriminate].
  destruct (find_td (snd element)) as [cell|]; [|discriminate].
  destruct (reformat cell) as [date|e] eqn:Hr; [|discriminate].
  cbn [Py.bind].
  destruct (find_html (snd element)) as [href|]; [|discriminate].
  intros [= H].
  set (f := {| company := strip_ws (sub_filer 0 a);
               date_time := date;
               full_url := ("[link](https://www.sec.gov"
                            ++ match href with
                               | Some path => path
                               | None => "None"
                               end ++ ")")%string |}).
  assert (E : row = (filing_row f ++ NL)%string).
  { rewrite <- H. unfold filing_row, f. cbn [company date_time full_url].
    rewrite !append_assoc. reflexivity. }
  exists f. split; [exact E|]. split; [|split; [|split]].
  - exists a. split; reflexivity.
  - exists cell. split; [reflexivity|exact Hr].
  - intros Hp. rewrite E. apply break_lines_one_line.
    apply plain_filing_row. exact Hp.
  - intros Hc Hd. apply filing_row_timestamp; assumption.
Qed.

(** The company column of a row that the extraction returns has no
    whitespace at its start or at its end: the row is [|], the text of
    the first link with the annotation taken out and stripped, [|], the
    reformatted date, [|], the link and [|] with a newline; that company
    text starts with no whitespace character and no part at its end is
    whitespace; and it is the column [row.split('|')[1]] when it holds no
    [|]. *)
Theorem extracted_company_is_trimmed (element : tag * tag) (row : string) :
  extract element = Ok row ->
  exists a cell date href,
    find_a (fst element) = Some a
    /\ find_td (snd element) = Some cell
    /\ reformat cell = Ok date
    /\ find_html (snd element) = Some href
    /\ row = ("|" ++ strip_ws (sub_filer 0 a) ++ "|" ++ date ++ "|"
              ++ ("[link](https://www.sec.gov"
                  ++ match href with
                     | Some path => path
                     | None => "None"
                     end ++ ")")
              ++ "|" ++ NL)%string
    /\ whitespace_len (strip_ws (sub_filer 0 a)) = 0
    /\ (forall front tail,
           strip_ws (sub_filer 0 a) = (front ++ tail)%string ->
           all_whitespace tail = true ->
           tail = EmptyString)
    /\ (free_of PIPE (strip_ws (sub_filer 0 a)) = true ->
        field 1 row = Ok (strip_ws (sub_filer 0 a))).
Proof.
  unfold Extractor.get_filing_info.
  destruct (find_a (fst element)) as [a|]; [|discriminate].
  destruct (find_td (snd element)) as [cell|]; [|discriminate].
  destruct (reformat cell) as [date|e] eqn:Hr; [|discriminate]. cbn [Py.bind].
  destruct (find_html (snd element)) as [href|]; [|discriminate].
  intros [= H]. exists a, cell, date, href.
  repeat (split; [reflexivity|]). split; [exact Hr|]. split; [reflexivity|].
  split; [symmetry; exact H|].
  destruct (strip_ws_trimmed (sub_filer 0 a)) as [L T].
  split; [exact L|]. split; [exact T|].
  intros Hp.
  assert (E : row
              = (EmptyString ++ String PIPE
                   (strip_ws (sub_filer 0 a) ++ String PIPE
                      (date ++ "|"
                       ++ ("[link](https://www.sec.gov"
                           ++ match href with
                              | Some path => path
                              | None => "None"
                              end ++ ")")
                       ++ "|" ++ NL)))%string)
    by (rewrite <- H; reflexivity).
  unfold field. rewrite E.
  rewrite (split_field EmptyString _ eq_refl), (split_field _ _ Hp).
  reflexivity.
Qed.

End ExtractorFacts.

Lemma get_filing_info_cleans_company_witness :
  Extractor.get_filing_info sample_row anchor cell html_href sample_reformat
    (acme_name_row, acme_data_row)
  = Ok ("|" ++ strip_ws "Acme Corp " ++ "|" ++ "2024-01-03 09:00:00"
        ++ "|[link](https://www.sec.gov" ++ "/a3.htm" ++ ")|" ++ NL)%string.
Proof.
  apply (get_filing_info_cleans_company sample_row anchor cell html_href
           sample_reformat (acme_name_row, acme_data_row)
           "Acme Corp " "0001234567" NL "2024-01-0309:00:00");
    reflexivity.
Defined.

Lemma extracted_row_is_one_entry_witness :
  exists f : filing,
    first_page_rows = (filing_row f ++ NL)%string
    /\ (exists a, anchor acme_name_row = Some a
                  /\ company f = strip_ws (sub_filer 0 a))
    /\ (exists c, cell acme_data_row = Some c
                  /\ sample_reformat c = Ok (date_time f))
    /\ (plain_filing f = true -> splitlines first_page_rows = [filing_row f])
    /\ (free_of PIPE (company f) = true ->
        free_of PIPE (date_time f) = true ->
        entry_timestamp (filing_row f) = Ok (date_time f)).
Proof.
  apply (extracted_row_is_one_entry sample_row anchor cell html_href
           sample_reformat (acme_name_row, acme_data_row) first_page_rows).
  reflexivity.
Defined.

Lemma extracted_company_is_trimmed_witness :
  exists a c date href,
    anchor acme_name_row = Some a
    /\ cell acme_data_row = Some c
    /\ sample_reformat c = Ok date
    /\ html_href acme_data_row = Some href
    /\ first_page_rows
       = ("|" ++ strip_ws (sub_filer 0 a) ++ "|" ++ date ++ "|"
          ++ ("[link](https://www.sec.gov"
              ++ match href with
                 | Some path => path
                 | None => "None"
                 end ++ ")")
          ++ "|" ++ NL)%string
    /\ whitespace_len (strip_ws (sub_filer 0 a)) = 0
    /\ (forall front tail,
           strip_ws (sub_filer 0 a) = (front ++ tail)%string ->
           all_whitespace tail = true ->
           tail = EmptyString)
    /\ (free_of PIPE (strip_ws (sub_filer 0 a)) = true ->
        field 1 first_page_rows = Ok (strip_ws (sub_filer 0 a))).
Proof.
  apply (extracted_company_is_trimmed sample_row anchor cell html_href
           sample_reformat (acme_name_row, acme_data_row) first_page_rows).
  reflexivity.
Defined.

(** ** The rows of a page: facts *)

Section RowFacts.

Variable tag : Type.
Variable get_text : tag -> string.

Lemma row_pairs_adjacent (tr_elements : list tag) (a b : tag) :
  In (a, b) (row_pairs tag tr_elements)
  <-> exists before after, tr_elements = before ++ a :: b :: after.
Proof.
  unfold row_pairs. induction tr_elements as [|x l IH].
  - split; [intros []|]. intros (before & after & E).
    destruct before; discriminate.
  - cbn [tl]. destruct l as [|y l'].
    + split; [intros []|]. intros (before & after & E).
      destruct before as [|z [|w before]]; discriminate.
    + cbn [combine tl] in *. split.
      * intros [E|H].
        -- injection E as <- <-. exists [], l'. reflexivity.
        -- destruct (proj1 IH H) as (before & after & E).
           exists (x :: before), after. rewrite E. reflexivity.
      * intros (before & after & E). destruct before as [|z before].
        -- injection E as <- <- _. left. reflexivity.
        -- injection E as _ E. right. apply IH. exists before, after. exact E.
Qed.

(** The pairs of rows handed to the extraction are exactly these: a row
    whose text holds [Current report] and the item number, together with
    the row right before it in the page. *)
Theorem filing_pairs_are_adjacent_rows (tr_elements : list tag) (a b : tag) :
  In (a, b) (tr_elements_with_item tag get_text tr_elements)
  <-> (exists before after, tr_elements = before ++ a :: b :: after)
      /\ contains "Current report" (get_text b) = true
      /\ contains ITEM (get_text b) = true.
Proof.
  unfold tr_elements_with_item. rewrite filter_In, row_pairs_adjacent.
  unfold has_item. cbn [snd]. rewrite andb_true_iff. reflexivity.
Qed.

End RowFacts.

Lemma filing_pairs_are_adjacent_rows_witness :
  In ("Acme Corp", "8-K Current report, items 1.05 and 9.01")
    (tr_elements_with_item PlainText.tag PlainText.get_text
       (PlainText.find_all_tr (PlainText.BeautifulSoup first_page))).
Proof.
  apply (proj2 (filing_pairs_are_adjacent_rows PlainText.tag PlainText.get_text
                  (PlainText.find_all_tr (PlainText.BeautifulSoup first_page))
                  "Acme Corp" "8-K Current report, items 1.05 and 9.01")).
  split; [|split; reflexivity].
  exists [], ["Next 100"]. reflexivity.
Defined.

(** ** The base64 content: facts *)

Lemma b64_digit_value (n : nat) :
  n < 64 ->
  b64_value (b64_digit n) = n /\ Ascii.eqb (b64_digit n) "="%char = false.
Proof.
  intros H. do 64 (destruct n as [|n]; [split; reflexivity|]). lia.
Qed.

Lemma triples_ind (P : list nat -> Prop) :
  P [] ->
  (forall a, P [a]) ->
  (forall a b, P [a; b]) ->
  (forall a b c l, P l -> P (a :: b :: c :: l)) ->
  forall l, P l.
Proof.
  intros H0 H1 H2 H3 l.
  assert (A : P l /\ (forall a, P (a :: l)) /\ (forall a b, P (a :: b :: l))).
  { induction l as [|x l (I0 & I1 & I2)].
    - repeat split; auto.
    - repeat split; auto. }
  exact (proj1 A).
Qed.

Lemma b64_bytes_groups (bs : list nat) :
  Forall (fun b => b < 256) bs -> b64_bytes (b64_groups bs) = bs.
Proof.
  induction bs as [|a|a b|a b c l IH] using triples_ind; intros F.
  - reflexivity.
  - inversion F as [|? ? Ha _]; subst. cbn [b64_groups b64_bytes].
    destruct (b64_digit_value (a / 4)) as [V1 _].
    { apply Nat.Div0.div_lt_upper_bound. lia. }
    destruct (b64_digit_value ((a mod 4) * 16)) as [V2 _].
    { pose proof (Nat.mod_upper_bound a 4). lia. }
    rewrite V1, V2. change (Ascii.eqb "=" "=") with true. cbn iota.
    f_equal. pose proof (Nat.div_mod_eq a 4).
    rewrite Nat.div_mul by lia. lia.
  - inversion F as [|? ? Ha F']; subst. inversion F' as [|? ? Hb _]; subst.
    cbn [b64_groups b64_bytes].
    pose proof (Nat.mod_upper_bound a 4 ltac:(lia)).
    pose proof (Nat.mod_upper_bound b 16 ltac:(lia)).
    assert (b / 16 < 16) by (apply Nat.Div0.div_lt_upper_bound; lia).
    destruct (b64_digit_value (a / 4)) as [V1 _].
    { apply Nat.Div0.div_lt_upper_bound. lia. }
    destruct (b64_digit_value ((a mod 4) * 16 + b / 16)) as [V2 _]; [lia|].
    destruct (b64_digit_value ((b mod 16) * 4)) as [V3 P3]; [lia|].
    rewrite V1, V2, V3, P3. change (Ascii.eqb "=" "=") with true. cbn iota.
    pose proof (Nat.div_mod_eq a 4). pose proof (Nat.div_mod_eq b 16).
    assert (E2 : ((a mod 4) * 16 + b / 16) / 16 = a mod 4)
      by (rewrite Nat.div_add_l by lia; rewrite (Nat.div_small (b / 16)) by lia; lia).
    assert (E3 : ((a mod 4) * 16 + b / 16) mod 16 = b / 16)
      by (rewrite Nat.add_comm, Nat.Div0.mod_add; apply Nat.mod_small; lia).
    assert (E4 : ((b mod 16) * 4) / 4 = b mod 16) by (apply Nat.div_mul; lia).
    rewrite E2, E3, E4. f_equal; [lia|]. f_equal. lia.
  - inversion F as [|? ? Ha F1]; subst. inversion F1 as [|? ? Hb F2]; subst.
    inversion F2 as [|? ? Hc F3]; subst.
    cbn [b64_groups b64_bytes].
    pose proof (Nat.mod_upper_bound a 4 ltac:(lia)).
    pose proof (Nat.mod_upper_bound b 16 ltac:(lia)).
    pose proof (Nat.mod_upper_bound c 64 ltac:(lia)).
    assert (b / 16 < 16) by (apply Nat.Div0.div_lt_upper_bound; lia).
    assert (c / 64 < 4) by (apply Nat.Div0.div_lt_upper_bound; lia).
    destruct (b64_digit_value (a / 4)) as [V1 _].
    { apply Nat.Div0.div_lt_upper_bound. lia. }
    destruct (b64_digit_value ((a mod 4) * 16 + b / 16)) as [V2 _]; [lia|].
    destruct (b64_digit_value ((b mod 16) * 4 + c / 64)) as [V3 P3]; [lia|].
    destruct (b64_digit_value (c mod 64)) as [V4 P4]; [lia|].
    rewrite V1, V2, V3, V4, P3, P4.
    pose proof (Nat.div_mod_eq a 4). pose proof (Nat.div_mod_eq b 16).
    pose proof (Nat.div_mod_eq c 64).
    assert (E2 : ((a mod 4) * 16 + b / 16) / 16 = a mod 4)
      by (rewrite Nat.div_add_l by lia; rewrite (Nat.div_small (b / 16)) by lia; lia).
    assert (E3 : ((a mod 4) * 16 + b / 16) mod 16 = b / 16)
      by (rewrite Nat.add_comm, Nat.Div0.mod_add; apply Nat.mod_small; lia).
    assert (E4 : ((b mod 16) * 4 + c / 64) / 4 = b mod 16)
      by (rewrite Nat.div_add_l by lia; rewrite (Nat.div_small (c / 64)) by lia; lia).
    assert (E5 : ((b mod 16) * 4 + c / 64) mod 4 = c / 64)
      by (rewrite Nat.add_comm, Nat.Div0.mod_add; apply Nat.mod_small; lia).
    rewrite E2, E3, E4, E5, (IH F3). f_equal; [lia|]. f_equal; [lia|].
    f_equal. lia.
Qed.

Lemma bytes_of_string_bounded (s : string) :
  Forall (fun b => b < 256) (map nat_of_ascii (list_ascii_of_string s)).
Proof.
  induction s as [|c s IH]; [constructor|]. cbn [list_ascii_of_string map].
  constructor; [apply nat_ascii_bounded|exact IH].
Qed.

Lemma bytes_of_string_inj (a b : string) :
  map nat_of_ascii (list_ascii_of_string a)
  = map nat_of_ascii (list_ascii_of_string b) -> a = b.
Proof.
  revert b. induction a as [|x a IH]; intros [|y b] H; try discriminate.
  - reflexivity.
  - cbn [list_ascii_of_string map] in H. injection H as Hx H.
    rewrite (IH b H). f_equal.
    rewrite <- (ascii_nat_embedding x), <- (ascii_nat_embedding y), Hx.
    reflexivity.
Qed.

Lemma b64encode_injective (a b : string) :
  b64encode a = b64encode b -> a = b.
Proof.
  unfold b64encode. intros H. apply bytes_of_string_inj.
  rewrite <- (b64_bytes_groups _ (bytes_of_string_bounded a)),
          <- (b64_bytes_groups _ (bytes_of_string_bounded b)), H.
  reflexivity.
Qed.

(** The content of a write request is the document and nothing else: its
    base64 text decodes to the bytes of the heading followed by the
    entries, and two requests made under the same heading with the same
    content carry the same entries. *)
Theorem payload_content_is_document
  (now entries_to_file : string) (current_sha : option string) :
  b64_bytes (content (put_payload now entries_to_file current_sha))
  = map nat_of_ascii
      (list_ascii_of_string (HEADING now ++ entries_to_file)%string)
  /\ forall (entries' : string) (sha' : option string),
       content (put_payload now entries' sha')
       = content (put_payload now entries_to_file current_sha) ->
       entries' = entries_to_file.
Proof.
  unfold put_payload. cbn [content]. split.
  - unfold b64encode, full_content.
    apply b64_bytes_groups. apply bytes_of_string_bounded.
  - intros entries' sha' H. apply b64encode_injective in H.
    unfold full_content in H. exact (append_inj_prefix _ _ _ H).
Qed.
